(** * The direct DNA backend integration of the API gateway

    A shallow embedding of [services/api-gateway/dna_direct_import.py]:
    the binder [initialize_dna_backend], which resolves three functions of
    the DNA backend at import time and records the outcome in four module
    globals, and the facade [DNADirectIntegration], whose three methods
    either forward to the bound function or answer with a fallback
    dictionary.

    The module globals, [sys.path], [sys.modules] and the two output streams
    are threaded explicitly through a state-and-exception monad; Python
    exceptions carry the one fact about their class the module depends on,
    namely whether the class derives from [Exception], since every handler
    of the module is written [except Exception]. *)

From Stdlib Require Import Strings.String Strings.Ascii Strings.Byte List Bool ZArith Lia.
Import ListNotations.
Open Scope string_scope.
Set Warnings "-register-all".

(** ** Python values *)

(** The data that crosses the facade: JSON-like values, byte strings, and
    plain objects with data attributes (a response object of the web
    framework is such an object).  A dictionary keeps its items in insertion
    order, as Python's [dict] does. *)
Inductive pyval : Type :=
| PNone
| PBool (b : bool)
| PInt (z : Z)
| PStr (s : string)
| PBytes (b : list byte)
| PList (l : list pyval)
| PDict (d : list (string * pyval))
| PObj (cls : string) (attrs : list (string * pyval)).

(** [type(v).__name__] *)
Definition type_name (v : pyval) : string :=
  match v with
  | PNone => "NoneType"
  | PBool _ => "bool"
  | PInt _ => "int"
  | PStr _ => "str"
  | PBytes _ => "bytes"
  | PList _ => "list"
  | PDict _ => "dict"
  | PObj cls _ => cls
  end.

Fixpoint assoc {A : Type} (k : string) (l : list (string * A)) : option A :=
  match l with
  | [] => None
  | (k', a) :: l' => if String.eqb k k' then Some a else assoc k l'
  end.

(** The data attributes of a value.  The builtin types have methods but no
    attribute called [content] or [body]; an object has the attributes it
    was given. *)
Definition getattr (v : pyval) (name : string) : option pyval :=
  match v with
  | PObj _ attrs => assoc name attrs
  | _ => None
  end.

Definition hasattr (v : pyval) (name : string) : bool :=
  match getattr v name with
  | Some _ => true
  | None => false
  end.

(** [d.keys()], in insertion order. *)
Definition dict_keys (d : list (string * pyval)) : list string := map fst d.

(** The keys of a response; a value that is not a dictionary has none. *)
Definition keys_of (v : pyval) : list string :=
  match v with
  | PDict d => dict_keys d
  | _ => []
  end.

(** [d[k]] for a response. *)
Definition field (v : pyval) (k : string) : option pyval :=
  match v with
  | PDict d => assoc k d
  | _ => None
  end.

(** ** Exceptions *)

(** Where a class sits in the hierarchy: under [Exception], or under
    [BaseException] only ([KeyboardInterrupt], [SystemExit],
    [GeneratorExit], [asyncio.CancelledError]). *)
Inductive exc_base : Type :=
| DerivesException
| BaseExceptionOnly.

Record pyexc : Type := mk_exc {
  exc_name : string;      (* type(e).__name__ *)
  exc_base_of : exc_base;
  exc_str : string        (* str(e) *)
}.

(** [isinstance(e, Exception)], the test of [except Exception]. *)
Definition isinstance_Exception (e : pyexc) : bool :=
  match exc_base_of e with
  | DerivesException => true
  | BaseExceptionOnly => false
  end.

Definition AttributeError (msg : string) : pyexc := mk_exc "AttributeError" DerivesException msg.
Definition TypeError (msg : string) : pyexc := mk_exc "TypeError" DerivesException msg.
Definition FileNotFoundError (msg : string) : pyexc := mk_exc "FileNotFoundError" DerivesException msg.
Definition ImportError (msg : string) : pyexc := mk_exc "ImportError" DerivesException msg.
Definition UnicodeDecodeError (msg : string) : pyexc := mk_exc "UnicodeDecodeError" DerivesException msg.
Definition JSONDecodeError (msg : string) : pyexc := mk_exc "JSONDecodeError" DerivesException msg.

(** The outcome of evaluating an expression: a value, or a raised exception. *)
Inductive res (A : Type) : Type :=
| Ok (a : A)
| Raise (e : pyexc).
Arguments Ok {A} a.
Arguments Raise {A} e.

(** ** The external component *)

(** A function of the DNA backend, as the gateway sees it: called with
    positional arguments, it returns a value or raises.  For the two
    coroutine functions this is the outcome of calling and awaiting. *)
Definition Callable : Type := list pyval -> res pyval.

(** The namespace of a loaded module: what it binds each name to, a function
    ([Some h]) or Python's [None].  An assignment such as line 36 stores the
    value as it finds it. *)
Definition PyModule : Type := list (string * option Callable).

(** What [importlib.util.spec_from_file_location] hands back: creating the
    module object may fail, and executing the file either fails or leaves
    the module's namespace. *)
Record ModuleSpec : Type := {
  module_from_spec : res unit;
  exec_module : res PyModule
}.

(** The environment of the importing process. *)
Record Env : Type := {
  DNA_BACKEND_PATH : string;
  (* [import name] with the given [sys.path] *)
  import_module : list string -> string -> res PyModule;
  os_path_exists : string -> bool;
  (* [spec_from_file_location(name, location)] *)
  spec_from_file_location : string -> string -> option ModuleSpec
}.

(** [os.path.join] of a directory and a relative name (POSIX). *)
Fixpoint ends_with_slash (s : string) : bool :=
  match s with
  | EmptyString => false
  | String c EmptyString => Ascii.eqb c "/"%char
  | String _ s' => ends_with_slash s'
  end.

Definition os_path_join (a b : string) : string :=
  match a with
  | EmptyString => b
  | _ => if ends_with_slash a then a ++ b else a ++ "/" ++ b
  end.

(** ** Process state *)

(** The four globals of the module. *)
Record Globals : Type := mk_globals {
  get_available_models_endpoint : option Callable;
  llm_summary : option Callable;
  get_config : option Callable;
  DNA_BACKEND_AVAILABLE : bool
}.

Record World : Type := mk_world {
  globals : Globals;
  sys_path : list string;
  sys_modules : list string;   (* the names assigned by line 50; what the
                                  import statements of the module and of the
                                  backend register is not recorded *)
  stdout : list string;        (* the lines printed so far *)
  stderr : list string
}.

(** Lines 19-22: the globals before the binder runs. *)
Definition initial_globals : Globals :=
  mk_globals None None None false.

Definition initial_world (path : list string) : World :=
  mk_world initial_globals path [] [] [].

(** ** The monad of the module's code *)

Definition M (A : Type) : Type := World -> res A * World.

Definition ret {A : Type} (a : A) : M A := fun w => (Ok a, w).

Definition raise {A : Type} (e : pyexc) : M A := fun w => (Raise e, w).

Definition bind {A B : Type} (m : M A) (k : A -> M B) : M B :=
  fun w =>
    match m w with
    | (Ok a, w') => k a w'
    | (Raise e, w') => (Raise e, w')
    end.

Notation "x <- c1 ;; c2" := (bind c1 (fun x => c2))
  (at level 61, c1 at next level, right associativity).
Notation "c1 ;; c2" := (bind c1 (fun _ => c2))
  (at level 61, right associativity).

(** [try: body / except Exception as e: handler e].  An exception whose class
    does not derive from [Exception] passes through. *)
Definition try_except_Exception {A : Type} (body : M A) (handler : pyexc -> M A) : M A :=
  fun w =>
    match body w with
    | (Ok a, w') => (Ok a, w')
    | (Raise e, w') =>
        if isinstance_Exception e then handler e w' else (Raise e, w')
    end.

Definition lift {A : Type} (r : res A) : M A := fun w => (r, w).

Definition read {A : Type} (f : World -> A) : M A := fun w => (Ok (f w), w).

Definition print (line : string) : M unit :=
  fun w => (Ok tt, mk_world (globals w) (sys_path w) (sys_modules w)
                            (stdout w ++ [line]) (stderr w)).

(** [traceback.print_exc()]: the header and the exception line go to
    [stderr]; the frame lines between them depend on the interpreter's stack
    and are left out. *)
Definition format_exception_only (e : pyexc) : string :=
  match exc_str e with
  | EmptyString => exc_name e
  | msg => exc_name e ++ ": " ++ msg
  end.

Definition traceback_print_exc (e : pyexc) : M unit :=
  fun w => (Ok tt, mk_world (globals w) (sys_path w) (sys_modules w) (stdout w)
                            (stderr w ++ ["Traceback (most recent call last):";
                                          format_exception_only e])).

Definition sys_path_insert0 (p : string) : M unit :=
  fun w => (Ok tt, mk_world (globals w) (p :: sys_path w) (sys_modules w)
                            (stdout w) (stderr w)).

Definition sys_modules_set (name : string) : M unit :=
  fun w => (Ok tt, mk_world (globals w) (sys_path w) (name :: sys_modules w)
                            (stdout w) (stderr w)).

Definition write_globals (f : Globals -> Globals) : M unit :=
  fun w => (Ok tt, mk_world (f (globals w)) (sys_path w) (sys_modules w)
                            (stdout w) (stderr w)).

Definition set_get_available_models_endpoint (v : option Callable) : M unit :=
  write_globals (fun g => mk_globals v (llm_summary g) (get_config g)
                                     (DNA_BACKEND_AVAILABLE g)).

Definition set_llm_summary (v : option Callable) : M unit :=
  write_globals (fun g => mk_globals (get_available_models_endpoint g) v
                                     (get_config g) (DNA_BACKEND_AVAILABLE g)).

Definition set_get_config (v : option Callable) : M unit :=
  write_globals (fun g => mk_globals (get_available_models_endpoint g) (llm_summary g)
                                     v (DNA_BACKEND_AVAILABLE g)).

Definition set_DNA_BACKEND_AVAILABLE (b : bool) : M unit :=
  write_globals (fun g => mk_globals (get_available_models_endpoint g) (llm_summary g)
                                     (get_config g) b).

(** [module.attr] on a loaded module: the value the name is bound to, or
    [AttributeError] when the module has no such name. *)
Definition module_getattr (modname : string) (m : PyModule) (attr : string)
  : M (option Callable) :=
  match assoc attr m with
  | Some v => ret v
  | None => raise (AttributeError ("module '" ++ modname ++ "' has no attribute '"
                                   ++ attr ++ "'"))
  end.

(** Calling the object held by a global, which may be [None]. *)
Definition call (f : option Callable) (args : list pyval) : M pyval :=
  match f with
  | Some h => lift (h args)
  | None => raise (TypeError "'NoneType' object is not callable")
  end.

(** ** The binder (lines 24-64) *)

Definition initialize_dna_backend (env : Env) : M unit :=
  path <- read sys_path ;;
  (if existsb (String.eqb (DNA_BACKEND_PATH env)) path
   then ret tt
   else sys_path_insert0 (DNA_BACKEND_PATH env)) ;;
  try_except_Exception
    ((* Step 1 *)
     print ("Attempting to import from: " ++ DNA_BACKEND_PATH env) ;;
     path' <- read sys_path ;;
     llm_service <- lift (import_module env path' "llm_service") ;;
     f <- module_getattr "llm_service" llm_service "get_available_models_endpoint" ;;
     set_get_available_models_endpoint f ;;
     g <- module_getattr "llm_service" llm_service "llm_summary" ;;
     set_llm_summary g ;;
     print "Successfully imported llm_service functions" ;;
     (* Step 2 *)
     let dna_main_path := os_path_join (DNA_BACKEND_PATH env) "main.py" in
     (if negb (os_path_exists env dna_main_path)
      then raise (FileNotFoundError ("DNA backend main.py not found at: " ++ dna_main_path))
      else ret tt) ;;
     match spec_from_file_location env "dna_backend_main" dna_main_path with
     | None => raise (ImportError ("Could not create module spec for: " ++ dna_main_path))
     | Some spec =>
         lift (module_from_spec spec) ;;
         sys_modules_set "dna_backend_main" ;;
         dna_main_module <- lift (exec_module spec) ;;
         c <- module_getattr "dna_backend_main" dna_main_module "get_config" ;;
         set_get_config c ;;
         print "Successfully imported get_config from DNA backend main.py" ;;
         set_DNA_BACKEND_AVAILABLE true ;;
         print "DNA backend initialization completed successfully"
     end)
    (fun e =>
       print ("Failed to initialize DNA backend: " ++ exc_str e) ;;
       print ("Error type: " ++ exc_name e) ;;
       traceback_print_exc e ;;
       set_DNA_BACKEND_AVAILABLE false).

(** ** Library functions used by the facade *)

(** The result of a library parser: the parsed value, or the message of the
    error it raises. *)
Inductive parsed (A : Type) : Type :=
| Parsed (a : A)
| Malformed (msg : string).
Arguments Parsed {A} a.
Arguments Malformed {A} msg.

(** [bytes.decode('utf-8')] and [json.loads] belong to the Python library,
    not to this module; the facade is defined over any pair of them.  A
    failed decoding raises [UnicodeDecodeError], a failed parse
    [json.JSONDecodeError], both subclasses of [ValueError]. *)
Record Codec : Type := {
  utf8_decode : list byte -> parsed string;
  json_loads : string -> parsed pyval
}.

(** [v.attr] on a value. *)
Definition attr_get (v : pyval) (name : string) : M pyval :=
  match getattr v name with
  | Some a => ret a
  | None => raise (AttributeError ("'" ++ type_name v ++ "' object has no attribute '"
                                   ++ name ++ "'"))
  end.

(** [v.decode('utf-8')]: only a byte string has the method. *)
Definition decode_utf8 (codec : Codec) (v : pyval) : M string :=
  match v with
  | PBytes b =>
      match utf8_decode codec b with
      | Parsed s => ret s
      | Malformed msg => raise (UnicodeDecodeError msg)
      end
  | _ =>
      match getattr v "decode" with
      | Some a => raise (TypeError ("'" ++ type_name a ++ "' object is not callable"))
      | None => raise (AttributeError ("'" ++ type_name v
                                       ++ "' object has no attribute 'decode'"))
      end
  end.

(** [json.loads(s)] *)
Definition loads (codec : Codec) (s : string) : M pyval :=
  match json_loads codec s with
  | Parsed v => ret v
  | Malformed msg => raise (JSONDecodeError msg)
  end.

Definition is_None {A : Type} (o : option A) : bool :=
  match o with
  | None => true
  | Some _ => false
  end.

(** ** The facade (lines 69-162) *)

Module DNADirectIntegration.

Definition __init__ : M unit :=
  available <- read (fun w => DNA_BACKEND_AVAILABLE (globals w)) ;;
  if negb available
  then print "DNA backend not available - using fallback responses"
  else print "DNA Direct Integration initialized successfully".

Definition get_available_models : M pyval :=
  available <- read (fun w => DNA_BACKEND_AVAILABLE (globals w)) ;;
  endpoint <- read (fun w => get_available_models_endpoint (globals w)) ;;
  if negb available || is_None endpoint then
    ret (PDict [("available_models", PList []);
                ("enabled_providers", PList []);
                ("available_prompt_types", PList [PStr "short"]);
                ("disable_llm", PBool true);
                ("error", PStr "DNA backend not available")])
  else
    try_except_Exception
      (call endpoint [])
      (fun e =>
         print ("Error calling DNA backend get_available_models_endpoint: " ++ exc_str e) ;;
         ret (PDict [("available_models", PList []);
                     ("enabled_providers", PList []);
                     ("available_prompt_types", PList [PStr "short"]);
                     ("disable_llm", PBool true);
                     ("error", PStr (exc_str e))])).

Definition llm_summary (request_data : pyval) : M pyval :=
  available <- read (fun w => DNA_BACKEND_AVAILABLE (globals w)) ;;
  summarize <- read (fun w => llm_summary (globals w)) ;;
  if negb available || is_None summarize then
    ret (PDict [("summary", PStr "Error: DNA backend not available");
                ("provider", PStr "none");
                ("model", PStr "none");
                ("prompt_type", PStr "short");
                ("routed", PBool false);
                ("error", PBool true)])
  else
    try_except_Exception
      (call summarize [request_data])
      (fun e =>
         print ("Error calling DNA backend llm_summary: " ++ exc_str e) ;;
         ret (PDict [("summary", PStr ("Error: " ++ exc_str e));
                     ("provider", PStr "error");
                     ("model", PStr "none");
                     ("prompt_type", PStr "short");
                     ("routed", PBool false);
                     ("error", PBool true)])).

Definition get_config (codec : Codec) : M pyval :=
  available <- read (fun w => DNA_BACKEND_AVAILABLE (globals w)) ;;
  config <- read (fun w => get_config (globals w)) ;;
  if negb available || is_None config then
    ret (PDict [("shotgrid_enabled", PBool false);
                ("vexa_routing_enabled", PBool false);
                ("llm_backend_routing_enabled", PBool false);
                ("integrated", PBool true);
                ("error", PStr "DNA backend not available")])
  else
    try_except_Exception
      (config_response <- call config [] ;;
       if hasattr config_response "content" then
         content <- attr_get config_response "content" ;;
         text <- decode_utf8 codec content ;;
         loads codec text
       else if hasattr config_response "body" then
         body <- attr_get config_response "body" ;;
         text <- decode_utf8 codec body ;;
         loads codec text
       else
         ret config_response)
      (fun e =>
         print ("Error calling DNA backend get_config: " ++ exc_str e) ;;
         ret (PDict [("shotgrid_enabled", PBool false);
                     ("vexa_routing_enabled", PBool false);
                     ("llm_backend_routing_enabled", PBool false);
                     ("integrated", PBool true);
                     ("error", PStr (exc_str e))])).

End DNADirectIntegration.

(** ** The life of the process *)

(** A call made by the gateway on the global facade instance. *)
Inductive facade_call : Type :=
| GetAvailableModels
| LlmSummary (request_data : pyval)
| GetConfig.

Definition perform (codec : Codec) (c : facade_call) : M pyval :=
  match c with
  | GetAvailableModels => DNADirectIntegration.get_available_models
  | LlmSummary request_data => DNADirectIntegration.llm_summary request_data
  | GetConfig => DNADirectIntegration.get_config codec
  end.

(** The calls are served one after the other; a call that raises does not
    stop the process. *)
Fixpoint serve (codec : Codec) (calls : list facade_call) (w : World)
  : list (res pyval) * World :=
  match calls with
  | [] => ([], w)
  | c :: rest =>
      let (r, w') := perform codec c w in
      let (rs, w'') := serve codec rest w' in
      (r :: rs, w'')
  end.

(** Importing the module: the binder runs (line 67), then the global
    instance is constructed (line 165). *)
Definition import_dna_direct_import (env : Env) : M unit :=
  initialize_dna_backend env ;;
  DNADirectIntegration.__init__.

(** ** The response shapes of the specification *)

Definition unavailable_message : string := "DNA backend not available".

(** Models listing: [{available_models: [], enabled_providers: [],
    available_prompt_types: ["short"], disable_llm: true, error: <err>}]. *)
Definition models_fallback (err : string) : pyval :=
  PDict [("available_models", PList []);
         ("enabled_providers", PList []);
         ("available_prompt_types", PList [PStr "short"]);
         ("disable_llm", PBool true);
         ("error", PStr err)].

(** Summary: [{summary: "Error: <message>", provider: <provider>,
    model: "none", prompt_type: "short", routed: false, error: true}], with
    provider ["none"] when unavailable and ["error"] after an exception. *)
Definition summary_fallback (provider message : string) : pyval :=
  PDict [("summary", PStr ("Error: " ++ message));
         ("provider", PStr provider);
         ("model", PStr "none");
         ("prompt_type", PStr "short");
         ("routed", PBool false);
         ("error", PBool true)].

(** Configuration: [{shotgrid_enabled: false, vexa_routing_enabled: false,
    llm_backend_routing_enabled: false, integrated: true, error: <err>}]. *)
Definition config_fallback (err : string) : pyval :=
  PDict [("shotgrid_enabled", PBool false);
         ("vexa_routing_enabled", PBool false);
         ("llm_backend_routing_enabled", PBool false);
         ("integrated", PBool true);
         ("error", PStr err)].

(** "Decoded as UTF-8 text and parsed as structured data". *)
Definition decode_and_parse (codec : Codec) (payload : list byte) : parsed pyval :=
  match utf8_decode codec payload with
  | Parsed text => json_loads codec text
  | Malformed msg => Malformed msg
  end.

(** ** Sample inputs *)

Module Samples.

(** A small codec to run the definitions on: it decodes ASCII payloads and
    parses four JSON documents; everything else is reported malformed.  The
    theorems below hold for every codec. *)
Fixpoint ascii_decode (b : list byte) : parsed string :=
  match b with
  | [] => Parsed EmptyString
  | x :: b' =>
      if Nat.ltb (Byte.to_nat x) 128 then
        match ascii_decode b' with
        | Parsed s => Parsed (String (ascii_of_byte x) s)
        | Malformed msg => Malformed msg
        end
      else Malformed "'utf-8' codec can't decode byte: invalid start byte"
  end.

Definition tiny_loads (s : string) : parsed pyval :=
  if String.eqb s "{}" then Parsed (PDict [])
  else if String.eqb s "true" then Parsed (PBool true)
  else if String.eqb s "false" then Parsed (PBool false)
  else if String.eqb s "null" then Parsed PNone
  else Malformed "Expecting value: line 1 column 1 (char 0)".

Definition codec : Codec :=
  {| utf8_decode := ascii_decode; json_loads := tiny_loads |}.

Definition bytes_of (s : string) : list byte := list_byte_of_string s.

(** Backend functions. *)
Definition models_ok : Callable :=
  fun _ => Ok (PDict [("available_models", PList [PStr "gpt"]);
                      ("enabled_providers", PList [PStr "openai"])]).
Definition summary_echo : Callable :=
  fun args => Ok (PDict [("summary", PStr "ok"); ("request", PList args)]).
Definition config_dict : Callable :=
  fun _ => Ok (PDict [("shotgrid_enabled", PBool true)]).
Definition config_response (attr payload : string) : Callable :=
  fun _ => Ok (PObj "JSONResponse" [(attr, PBytes (bytes_of payload))]).
Definition raising (e : pyexc) : Callable := fun _ => Raise e.

Definition RuntimeError (msg : string) : pyexc := mk_exc "RuntimeError" DerivesException msg.
Definition KeyboardInterrupt : pyexc := mk_exc "KeyboardInterrupt" BaseExceptionOnly "".
Definition CancelledError : pyexc := mk_exc "CancelledError" BaseExceptionOnly "".
Definition SystemExit (code : string) : pyexc := mk_exc "SystemExit" BaseExceptionOnly code.
Definition ModuleNotFoundError (msg : string) : pyexc :=
  mk_exc "ModuleNotFoundError" DerivesException msg.

(** A world whose globals are as given. *)
Definition world_of (g : Globals) : World := mk_world g [] [] [] [].

Definition bound (m s c : Callable) : World :=
  world_of (mk_globals (Some m) (Some s) (Some c) true).

Definition unbound : World := initial_world [].

(** Environments of the binder. *)
Definition llm_service_module : PyModule :=
  [("get_available_models_endpoint", Some models_ok); ("llm_summary", Some summary_echo)].

Definition main_module : PyModule := [("get_config", Some config_dict)].

Definition main_spec : ModuleSpec :=
  {| module_from_spec := Ok tt; exec_module := Ok main_module |}.

(** The backend is in place. *)
Definition env_complete : Env :=
  {| DNA_BACKEND_PATH := "/app/dna/experimental/spi/note_assistant_v2/backend";
     import_module := fun _ _ => Ok llm_service_module;
     os_path_exists := fun _ => true;
     spec_from_file_location := fun _ _ => Some main_spec |}.

(** The backend directory is absent. *)
Definition env_absent : Env :=
  {| DNA_BACKEND_PATH := "/app/dna/experimental/spi/note_assistant_v2/backend";
     import_module := fun _ name =>
       Raise (ModuleNotFoundError ("No module named '" ++ name ++ "'"));
     os_path_exists := fun _ => false;
     spec_from_file_location := fun _ _ => None |}.

(** [llm_service] imports, but [main.py] is missing. *)
Definition env_no_main : Env :=
  {| DNA_BACKEND_PATH := "/app/dna/experimental/spi/note_assistant_v2/backend";
     import_module := fun _ _ => Ok llm_service_module;
     os_path_exists := fun _ => false;
     spec_from_file_location := fun _ _ => None |}.

(** [llm_service] calls [sys.exit] while it is imported. *)
Definition env_exits : Env :=
  {| DNA_BACKEND_PATH := "/app/dna/experimental/spi/note_assistant_v2/backend";
     import_module := fun _ _ => Raise (SystemExit "1");
     os_path_exists := fun _ => true;
     spec_from_file_location := fun _ _ => Some main_spec |}.

End Samples.

(** ** Notions used by the statements *)

(** A world in which the flag is set and the global holds [h]. *)
Definition models_bound (w : World) (h : Callable) : Prop :=
  DNA_BACKEND_AVAILABLE (globals w) = true
  /\ get_available_models_endpoint (globals w) = Some h.

Definition summary_bound (w : World) (h : Callable) : Prop :=
  DNA_BACKEND_AVAILABLE (globals w) = true /\ llm_summary (globals w) = Some h.

Definition config_bound (w : World) (h : Callable) : Prop :=
  DNA_BACKEND_AVAILABLE (globals w) = true /\ get_config (globals w) = Some h.

(** The world after one more line on [stdout]. *)
Definition printed (w : World) (line : string) : World :=
  mk_world (globals w) (sys_path w) (sys_modules w) (stdout w ++ [line]) (stderr w).

(** What the handler of [get_config] does with an exception. *)
Definition config_handled (w : World) (e : pyexc) : res pyval * World :=
  if isinstance_Exception e
  then (Ok (config_fallback (exc_str e)),
        printed w ("Error calling DNA backend get_config: " ++ exc_str e))
  else (Raise e, w).

(** The body of the [try] of [get_config], once the function has returned
    [r]: the outcome of normalising [r]. *)
Definition normalised (codec : Codec) (r : pyval) : res pyval :=
  let parse payload :=
    match payload with
    | PBytes b =>
        match utf8_decode codec b with
        | Parsed text =>
            match json_loads codec text with
            | Parsed v => Ok v
            | Malformed msg => Raise (JSONDecodeError msg)
            end
        | Malformed msg => Raise (UnicodeDecodeError msg)
        end
    | _ =>
        match getattr payload "decode" with
        | Some a => Raise (TypeError ("'" ++ type_name a ++ "' object is not callable"))
        | None => Raise (AttributeError ("'" ++ type_name payload
                                         ++ "' object has no attribute 'decode'"))
        end
    end in
  match getattr r "content" with
  | Some content => parse content
  | None =>
      match getattr r "body" with
      | Some body => parse body
      | None => Ok r
      end
  end.

(** Lines 28-29: the search path the import statement sees. *)
Definition search_path (env : Env) (path : list string) : list string :=
  if existsb (String.eqb (DNA_BACKEND_PATH env)) path
  then path
  else DNA_BACKEND_PATH env :: path.

(** Step 1 of the binder's contract: the module resolves and has the two
    names; the result is what they are bound to. *)
Definition step1 (env : Env) (path : list string)
  : option (option Callable * option Callable) :=
  match import_module env path "llm_service" with
  | Ok m =>
      match assoc "get_available_models_endpoint" m, assoc "llm_summary" m with
      | Some f, Some g => Some (f, g)
      | _, _ => None
      end
  | Raise _ => None
  end.

(** Step 2: the file exists, loads, and has the name. *)
Definition step2 (env : Env) : option (option Callable) :=
  let dna_main_path := os_path_join (DNA_BACKEND_PATH env) "main.py" in
  if os_path_exists env dna_main_path then
    match spec_from_file_location env "dna_backend_main" dna_main_path with
    | Some spec =>
        match module_from_spec spec, exec_module spec with
        | Ok _, Ok m => assoc "get_config" m
        | _, _ => None
        end
    | None => None
    end
  else None.

(** Both steps succeed. *)
Definition resolved (env : Env) (path : list string)
  : option (option Callable * option Callable * option Callable) :=
  match step1 env path, step2 env with
  | Some (f, g), Some c => Some (f, g, c)
  | _, _ => None
  end.

Arguments os_path_join : simpl never.
Arguments String.append : simpl never.

(** The answer of a call when the backend is unavailable. *)
Definition unavailable_response (c : facade_call) : pyval :=
  match c with
  | GetAvailableModels => models_fallback unavailable_message
  | LlmSummary _ => summary_fallback "none" unavailable_message
  | GetConfig => config_fallback unavailable_message
  end.

(** The world left by the binder when [llm_service] imports and [main.py] is
    missing: two functions are held by the globals, the flag is false. *)
Definition world_without_main : World :=
  snd (initialize_dna_backend Samples.env_no_main (initial_world [])).

(** The flag is set although nothing is bound. *)
Definition world_flag_only : World :=
  Samples.world_of (mk_globals None None None true).

Definition world_bound : World :=
  Samples.bound Samples.models_ok Samples.summary_echo Samples.config_dict.

(** Every exception an outcome may carry derives from [Exception]. *)
Definition raises_only_Exception {A : Type} (r : res A) : Prop :=
  forall e, r = Raise e -> isinstance_Exception e = true.

(** The summary function fails with an ordinary error. *)
Definition world_summary_fails : World :=
  Samples.bound Samples.models_ok
    (Samples.raising (Samples.RuntimeError "boom")) Samples.config_dict.

(** The models function fails with an ordinary error. *)
Definition world_models_fail : World :=
  Samples.bound (Samples.raising (Samples.RuntimeError "boom"))
    Samples.summary_echo Samples.config_dict.

(** The summary call is cancelled while it awaits the backend. *)
Definition world_summary_cancelled : World :=
  Samples.bound Samples.models_ok (Samples.raising Samples.CancelledError)
    Samples.config_dict.

(** The configuration function answers with a response object whose byte
    content is not JSON. *)
Definition world_config_malformed : World :=
  Samples.bound Samples.models_ok Samples.summary_echo
    (Samples.config_response "content" "{x").

(** The configuration function is interrupted from the keyboard. *)
Definition world_config_interrupted : World :=
  Samples.bound Samples.models_ok Samples.summary_echo
    (Samples.raising Samples.KeyboardInterrupt).

Definition models_keys : list string :=
  ["available_models"; "enabled_providers"; "available_prompt_types"; "disable_llm";
   "error"].

Definition summary_keys : list string :=
  ["summary"; "provider"; "model"; "prompt_type"; "routed"; "error"].

Definition config_keys : list string :=
  ["shotgrid_enabled"; "vexa_routing_enabled"; "llm_backend_routing_enabled";
   "integrated"; "error"].



(** Every exception a resolution step of the environment may raise derives
    from [Exception]: [ModuleNotFoundError], [ImportError], [SyntaxError],
    [OSError], errors raised by the code of the imported files, and so on. *)
Definition env_raises_only_Exception (env : Env) : Prop :=
  (forall path name, raises_only_Exception (import_module env path name))
  /\ (forall name location spec,
         spec_from_file_location env name location = Some spec ->
         raises_only_Exception (module_from_spec spec)
         /\ raises_only_Exception (exec_module spec)).

(** The backend binds none of the three names to [None]. *)
Definition binds_no_None (env : Env) (path : list string) : Prop :=
  (forall m,
      import_module env (search_path env path) "llm_service" = Ok m ->
      assoc "get_available_models_endpoint" m <> Some None
      /\ assoc "llm_summary" m <> Some None)
  /\ (forall spec mm,
         spec_from_file_location env "dna_backend_main"
           (os_path_join (DNA_BACKEND_PATH env) "main.py") = Some spec ->
         exec_module spec = Ok mm ->
         assoc "get_config" mm <> Some None).

(** ** Further sample inputs *)

(** [main.py] loads and binds [get_config] to [None]. *)
Definition env_config_None : Env :=
  {| DNA_BACKEND_PATH := "/app/dna/experimental/spi/note_assistant_v2/backend";
     import_module := fun _ _ => Ok Samples.llm_service_module;
     os_path_exists := fun _ => true;
     spec_from_file_location := fun _ _ =>
       Some {| module_from_spec := Ok tt; exec_module := Ok [("get_config", None)] |} |}.

(** [llm_service] defines the models function but no [llm_summary]. *)
Definition env_no_summary : Env :=
  {| DNA_BACKEND_PATH := "/app/dna/experimental/spi/note_assistant_v2/backend";
     import_module := fun _ _ =>
       Ok [("get_available_models_endpoint", Some Samples.models_ok)];
     os_path_exists := fun _ => true;
     spec_from_file_location := fun _ _ => Some Samples.main_spec |}.

(** [main.py] is there and raises while it is executed. *)
Definition failing_spec : ModuleSpec :=
  {| module_from_spec := Ok tt;
     exec_module := Raise (Samples.RuntimeError "SHOTGRID_URL is not set") |}.

Definition env_main_fails : Env :=
  {| DNA_BACKEND_PATH := "/app/dna/experimental/spi/note_assistant_v2/backend";
     import_module := fun _ _ => Ok Samples.llm_service_module;
     os_path_exists := fun _ => true;
     spec_from_file_location := fun _ _ => Some failing_spec |}.

(** The configuration function returns a dictionary that has keys called
    "content" and "body". *)
Definition dict_with_content_key : pyval :=
  PDict [("content", PBytes (Samples.bytes_of "{}")); ("body", PNone)].

Definition world_config_keyed : World :=
  Samples.bound Samples.models_ok Samples.summary_echo
    (fun _ => Ok dict_with_content_key).

(** ** Proof automation *)

(** Unfolds the monadic plumbing of a method body. *)
Ltac run :=
  unfold DNADirectIntegration.get_available_models, DNADirectIntegration.llm_summary,
    DNADirectIntegration.get_config, DNADirectIntegration.__init__,
    try_except_Exception, bind, read, ret, raise, call, lift, print;
  simpl.

(** Splits on the next scrutinee of the goal. *)
Ltac split_match :=
  match goal with
  | |- context [match ?x with _ => _ end] => destruct x eqn:?
  end.

(** Splits on what the library functions answer for a payload. *)
Ltac payload_cases :=
  repeat (simpl;
          match goal with
          | |- context [utf8_decode ?c ?b] => destruct (utf8_decode c b) eqn:?
          | |- context [json_loads ?c ?s] => destruct (json_loads c s) eqn:?
          | |- context [assoc ?k ?l] => destruct (assoc k l) eqn:?
          end);
  simpl; try reflexivity.

Ltac run_binder :=
  unfold initialize_dna_backend, resolved, step1, step2, search_path,
    try_except_Exception, bind, read, ret, raise, lift, print, module_getattr,
    set_get_available_models_endpoint, set_llm_summary, set_get_config,
    set_DNA_BACKEND_AVAILABLE, write_globals, sys_path_insert0, sys_modules_set,
    traceback_print_exc.

(** Splits on what the environment answers at each step of the binder. *)
Ltac binder_cases :=
  repeat (simpl;
          match goal with
          | |- context [existsb ?f ?l] => destruct (existsb f l) eqn:?
          | |- context [import_module ?e ?p ?n] => destruct (import_module e p n) eqn:?
          | |- context [assoc ?k ?l] => destruct (assoc k l) eqn:?
          | |- context [os_path_exists ?e ?p] => destruct (os_path_exists e p) eqn:?
          | |- context [spec_from_file_location ?e ?n ?p] =>
              destruct (spec_from_file_location e n p) eqn:?
          | |- context [module_from_spec ?s] => destruct (module_from_spec s) eqn:?
          | |- context [exec_module ?s] => destruct (exec_module s) eqn:?
          | |- context [isinstance_Exception ?e] => destruct (isinstance_Exception e) eqn:?
          end);
  simpl.

(** Closes a goal whose answer is a fallback shape. *)
Ltac fallback_case :=
  do 2 eexists; split; [reflexivity|]; right; repeat eexists.

(** * Properties *)

(** ** The model at work *)

(** With the backend in place, importing the module binds the three
    functions, sets the flag and registers [dna_backend_main]. *)
Example import_with_backend :
  let w := snd (import_dna_direct_import Samples.env_complete (initial_world ["/app"])) in
  globals w = mk_globals (Some Samples.models_ok) (Some Samples.summary_echo)
                         (Some Samples.config_dict) true
  /\ sys_path w = ["/app/dna/experimental/spi/note_assistant_v2/backend"; "/app"]
  /\ In "dna_backend_main" (sys_modules w)
  /\ stdout w = ["Attempting to import from: /app/dna/experimental/spi/note_assistant_v2/backend";
                 "Successfully imported llm_service functions";
                 "Successfully imported get_config from DNA backend main.py";
                 "DNA backend initialization completed successfully";
                 "DNA Direct Integration initialized successfully"].
Proof.
  split; [reflexivity|]. split; [reflexivity|].
  split; [vm_compute; left; reflexivity | reflexivity].
Qed.

(** Without the backend directory the import fails, the binder reports it
    and the facade starts in fallback mode. *)
Example import_without_backend :
  let w := snd (import_dna_direct_import Samples.env_absent (initial_world [])) in
  globals w = initial_globals
  /\ stdout w = ["Attempting to import from: /app/dna/experimental/spi/note_assistant_v2/backend";
                 "Failed to initialize DNA backend: No module named 'llm_service'";
                 "Error type: ModuleNotFoundError";
                 "DNA backend not available - using fallback responses"]
  /\ fst (DNADirectIntegration.get_config Samples.codec w)
     = Ok (PDict [("shotgrid_enabled", PBool false);
                  ("vexa_routing_enabled", PBool false);
                  ("llm_backend_routing_enabled", PBool false);
                  ("integrated", PBool true);
                  ("error", PStr "DNA backend not available")]).
Proof. repeat split. Qed.

(** A response object carrying its JSON in [body] is decoded and parsed; a
    plain dictionary is returned as it is. *)
Example get_config_from_body :
  fst (DNADirectIntegration.get_config Samples.codec
         (Samples.bound Samples.models_ok Samples.summary_echo
            (Samples.config_response "body" "{}")))
  = Ok (PDict [])
  /\ fst (DNADirectIntegration.get_config Samples.codec world_bound)
     = Ok (PDict [("shotgrid_enabled", PBool true)]).
Proof. split; reflexivity. Qed.

(** ** The guard of each method *)

Lemma get_available_models_guard (w : World) :
  negb (DNA_BACKEND_AVAILABLE (globals w))
    || is_None (get_available_models_endpoint (globals w)) = true ->
  DNADirectIntegration.get_available_models w
  = (Ok (models_fallback unavailable_message), w).
Proof.
  intros G. run. rewrite G. reflexivity.
Qed.

Lemma llm_summary_guard (request_data : pyval) (w : World) :
  negb (DNA_BACKEND_AVAILABLE (globals w)) || is_None (llm_summary (globals w)) = true ->
  DNADirectIntegration.llm_summary request_data w
  = (Ok (summary_fallback "none" unavailable_message), w).
Proof.
  intros G. run. rewrite G. reflexivity.
Qed.

Lemma get_config_guard (codec : Codec) (w : World) :
  negb (DNA_BACKEND_AVAILABLE (globals w)) || is_None (get_config (globals w)) = true ->
  DNADirectIntegration.get_config codec w
  = (Ok (config_fallback unavailable_message), w).
Proof.
  intros G. run. rewrite G. reflexivity.
Qed.

(** ** The methods with a bound function *)

Lemma get_available_models_bound (w : World) (h : Callable) :
  models_bound w h ->
  DNADirectIntegration.get_available_models w
  = match h [] with
    | Ok v => (Ok v, w)
    | Raise e =>
        if isinstance_Exception e
        then (Ok (models_fallback (exc_str e)),
              printed w ("Error calling DNA backend get_available_models_endpoint: "
                         ++ exc_str e))
        else (Raise e, w)
    end.
Proof.
  intros [A B]. run. rewrite A, B. simpl.
  destruct (h []) as [v|e]; [reflexivity|].
  destruct (isinstance_Exception e); reflexivity.
Qed.

Lemma llm_summary_bound (request_data : pyval) (w : World) (h : Callable) :
  summary_bound w h ->
  DNADirectIntegration.llm_summary request_data w
  = match h [request_data] with
    | Ok v => (Ok v, w)
    | Raise e =>
        if isinstance_Exception e
        then (Ok (summary_fallback "error" (exc_str e)),
              printed w ("Error calling DNA backend llm_summary: " ++ exc_str e))
        else (Raise e, w)
    end.
Proof.
  intros [A B]. run. rewrite A, B. simpl.
  destruct (h [request_data]) as [v|e]; [reflexivity|].
  destruct (isinstance_Exception e); reflexivity.
Qed.

Lemma normalised_raises_Exception (codec : Codec) (r : pyval) (e : pyexc) :
  normalised codec r = Raise e -> isinstance_Exception e = true.
Proof.
  unfold normalised.
  repeat split_match; intros H; inversion H; reflexivity.
Qed.

Lemma get_config_bound (codec : Codec) (w : World) (h : Callable) :
  config_bound w h ->
  DNADirectIntegration.get_config codec w
  = match h [] with
    | Ok r =>
        match normalised codec r with
        | Ok v => (Ok v, w)
        | Raise e => config_handled w e
        end
    | Raise e => config_handled w e
    end.
Proof.
  intros [A B]. run. rewrite A, B. simpl.
  unfold config_handled, normalised, hasattr, attr_get, decode_utf8, loads, raise, ret.
  destruct (h []) as [r|e]; [|destruct (isinstance_Exception e); reflexivity].
  destruct (getattr r "content") as [c|]; simpl.
  - destruct c; payload_cases.
  - destruct (getattr r "body") as [c|]; simpl; [|reflexivity].
    destruct c; payload_cases.
Qed.

(** ** The binder *)

(** When both steps succeed the binder returns, the three globals hold what
    the three names are bound to and the flag is set. *)
Lemma binder_resolved (env : Env) (w : World) (f g c : option Callable) :
  resolved env (search_path env (sys_path w)) = Some (f, g, c) ->
  fst (initialize_dna_backend env w) = Ok tt
  /\ globals (snd (initialize_dna_backend env w)) = mk_globals f g c true.
Proof.
  run_binder. binder_cases; intros H; inversion H; subst; split; reflexivity.
Qed.

(** When a step fails, the flag is cleared (or was never set) and no
    configuration function is bound. *)
Lemma binder_unresolved (env : Env) (path : list string) :
  resolved env (search_path env path) = None ->
  let w' := snd (initialize_dna_backend env (initial_world path)) in
  DNA_BACKEND_AVAILABLE (globals w') = false /\ get_config (globals w') = None.
Proof.
  run_binder. binder_cases; intros H; try discriminate H; split; reflexivity.
Qed.

(** An exception leaves the binder only if its class does not derive from
    [Exception]. *)
Lemma binder_escape (env : Env) (w : World) (e : pyexc) :
  fst (initialize_dna_backend env w) = Raise e -> isinstance_Exception e = false.
Proof.
  run_binder. binder_cases; intros H; inversion H; subst; congruence.
Qed.

(** ** The facade leaves the globals alone *)

Lemma perform_globals (codec : Codec) (c : facade_call) (w : World) :
  globals (snd (perform codec c w)) = globals w.
Proof.
  destruct c as [|request_data|]; simpl.
  - destruct (negb (DNA_BACKEND_AVAILABLE (globals w))
              || is_None (get_available_models_endpoint (globals w))) eqn:G.
    + rewrite get_available_models_guard by exact G. reflexivity.
    + apply orb_false_elim in G. destruct G as [A B].
      apply negb_false_iff in A.
      destruct (get_available_models_endpoint (globals w)) as [h|] eqn:E;
        [|discriminate B].
      rewrite (get_available_models_bound w h) by (split; assumption).
      destruct (h []) as [v|e]; [reflexivity|].
      destruct (isinstance_Exception e); reflexivity.
  - destruct (negb (DNA_BACKEND_AVAILABLE (globals w))
              || is_None (llm_summary (globals w))) eqn:G.
    + rewrite llm_summary_guard by exact G. reflexivity.
    + apply orb_false_elim in G. destruct G as [A B].
      apply negb_false_iff in A.
      destruct (llm_summary (globals w)) as [h|] eqn:E; [|discriminate B].
      rewrite (llm_summary_bound request_data w h) by (split; assumption).
      destruct (h [request_data]) as [v|e]; [reflexivity|].
      destruct (isinstance_Exception e); reflexivity.
  - destruct (negb (DNA_BACKEND_AVAILABLE (globals w))
              || is_None (get_config (globals w))) eqn:G.
    + rewrite get_config_guard by exact G. reflexivity.
    + apply orb_false_elim in G. destruct G as [A B].
      apply negb_false_iff in A.
      destruct (get_config (globals w)) as [h|] eqn:E; [|discriminate B].
      rewrite (get_config_bound codec w h) by (split; assumption).
      unfold config_handled.
      destruct (h []) as [r|e].
      * destruct (normalised codec r) as [v|e]; [reflexivity|].
        destruct (isinstance_Exception e); reflexivity.
      * destruct (isinstance_Exception e); reflexivity.
Qed.

Lemma serve_globals (codec : Codec) (calls : list facade_call) (w : World) :
  globals (snd (serve codec calls w)) = globals w.
Proof.
  revert w. induction calls as [|c rest IH]; intros w; simpl; [reflexivity|].
  pose proof (perform_globals codec c w) as P.
  destruct (perform codec c w) as [r w1]. simpl in P.
  specialize (IH w1).
  destruct (serve codec rest w1) as [rs w2]. simpl in *. congruence.
Qed.

Lemma init_globals (w : World) :
  globals (snd (DNADirectIntegration.__init__ w)) = globals w.
Proof.
  run. destruct (DNA_BACKEND_AVAILABLE (globals w)); reflexivity.
Qed.

(** ** Calls made while the backend is unavailable *)

Lemma serve_unavailable (codec : Codec) (calls : list facade_call) (w : World) :
  DNA_BACKEND_AVAILABLE (globals w) = false ->
  serve codec calls w = (map (fun c => Ok (unavailable_response c)) calls, w).
Proof.
  intros A. induction calls as [|c rest IH]; simpl; [reflexivity|].
  assert (P : perform codec c w = (Ok (unavailable_response c), w)).
  { destruct c; simpl.
    - apply get_available_models_guard. rewrite A. reflexivity.
    - apply llm_summary_guard. rewrite A. reflexivity.
    - apply get_config_guard. rewrite A. reflexivity. }
  rewrite P, IH. reflexivity.
Qed.

(** C1. While the availability flag is false, each of the three facade
    methods returns exactly its fixed fallback dictionary, built on the fixed
    string "DNA backend not available" (the [error] field of the models and
    configuration fallbacks, the text after "Error: " in the [summary] field
    of the summary fallback), for every request payload, every codec and
    whatever the three globals hold; the world is left as it was, so every
    call of any sequence of calls receives the same fixed answer. *)
Theorem unavailable_fixed_fallback
  (codec : Codec) (w : World) (request_data : pyval) (calls : list facade_call) :
  DNA_BACKEND_AVAILABLE (globals w) = false ->
  DNADirectIntegration.get_available_models w
  = (Ok (PDict [("available_models", PList []);
                ("enabled_providers", PList []);
                ("available_prompt_types", PList [PStr "short"]);
                ("disable_llm", PBool true);
                ("error", PStr "DNA backend not available")]), w)
  /\ DNADirectIntegration.llm_summary request_data w
     = (Ok (PDict [("summary", PStr "Error: DNA backend not available");
                   ("provider", PStr "none");
                   ("model", PStr "none");
                   ("prompt_type", PStr "short");
                   ("routed", PBool false);
                   ("error", PBool true)]), w)
  /\ DNADirectIntegration.get_config codec w
     = (Ok (PDict [("shotgrid_enabled", PBool false);
                   ("vexa_routing_enabled", PBool false);
                   ("llm_backend_routing_enabled", PBool false);
                   ("integrated", PBool true);
                   ("error", PStr "DNA backend not available")]), w)
  /\ serve codec calls w = (map (fun c => Ok (unavailable_response c)) calls, w).
Proof.
  intros A. repeat split.
  - rewrite get_available_models_guard by (rewrite A; reflexivity). reflexivity.
  - rewrite llm_summary_guard by (rewrite A; reflexivity). reflexivity.
  - rewrite get_config_guard by (rewrite A; reflexivity). reflexivity.
  - apply serve_unavailable. exact A.
Qed.

Lemma unavailable_fixed_fallback_witness :
  DNA_BACKEND_AVAILABLE (globals world_without_main) = false
  /\ fst (DNADirectIntegration.llm_summary (PDict [("text", PStr "notes")])
            world_without_main)
     = Ok (summary_fallback "none" unavailable_message)
  /\ fst (serve Samples.codec
            [GetConfig; GetAvailableModels; GetConfig] world_without_main)
     = [Ok (config_fallback unavailable_message);
        Ok (models_fallback unavailable_message);
        Ok (config_fallback unavailable_message)].
Proof.
  split; [reflexivity|].
  destruct (unavailable_fixed_fallback Samples.codec world_without_main
              (PDict [("text", PStr "notes")])
              [GetConfig; GetAvailableModels; GetConfig])
    as (_ & S & _ & V); [reflexivity|].
  split; [rewrite S; reflexivity | rewrite V; reflexivity].
Defined.

(** C10. Each method checks its own handle besides the flag: when the global
    a method forwards to holds [None], the method returns its unavailable
    fallback with the fixed string "DNA backend not available" and leaves the
    world as it was, whatever the flag says; the [None] is never called
    (calling it would have produced the message of a [TypeError] instead). *)
Theorem null_handle_guard (codec : Codec) (w : World) (request_data : pyval) :
  (get_available_models_endpoint (globals w) = None ->
   DNADirectIntegration.get_available_models w
   = (Ok (models_fallback "DNA backend not available"), w))
  /\ (llm_summary (globals w) = None ->
      DNADirectIntegration.llm_summary request_data w
      = (Ok (summary_fallback "none" "DNA backend not available"), w))
  /\ (get_config (globals w) = None ->
      DNADirectIntegration.get_config codec w
      = (Ok (config_fallback "DNA backend not available"), w)).
Proof.
  repeat split; intros N.
  - apply get_available_models_guard. rewrite N. apply orb_true_r.
  - apply llm_summary_guard. rewrite N. apply orb_true_r.
  - apply get_config_guard. rewrite N. apply orb_true_r.
Qed.

Lemma null_handle_guard_witness :
  DNA_BACKEND_AVAILABLE (globals world_flag_only) = true
  /\ DNADirectIntegration.get_available_models world_flag_only
     = (Ok (models_fallback "DNA backend not available"), world_flag_only)
  /\ DNADirectIntegration.llm_summary PNone world_flag_only
     = (Ok (summary_fallback "none" "DNA backend not available"), world_flag_only)
  /\ DNADirectIntegration.get_config Samples.codec world_flag_only
     = (Ok (config_fallback "DNA backend not available"), world_flag_only).
Proof.
  destruct (null_handle_guard Samples.codec world_flag_only PNone) as (A & B & C).
  split; [reflexivity|].
  split; [apply A; reflexivity|].
  split; [apply B; reflexivity | apply C; reflexivity].
Defined.

(** C6. With the flag set and the function bound, a call that the function
    completes returns the function's own result: [get_available_models]
    returns what the models function returned, [llm_summary] returns what the
    summary function returned on exactly the request payload it was given;
    nothing is added to or taken from either, and the world is unchanged. *)
Theorem pass_through (w : World) (h : Callable) (request_data v : pyval) :
  (models_bound w h -> h [] = Ok v ->
   DNADirectIntegration.get_available_models w = (Ok v, w))
  /\ (summary_bound w h -> h [request_data] = Ok v ->
      DNADirectIntegration.llm_summary request_data w = (Ok v, w)).
Proof.
  split; intros B E.
  - rewrite (get_available_models_bound w h B), E. reflexivity.
  - rewrite (llm_summary_bound request_data w h B), E. reflexivity.
Qed.

Lemma pass_through_witness :
  DNADirectIntegration.get_available_models world_bound
  = (Ok (PDict [("available_models", PList [PStr "gpt"]);
                ("enabled_providers", PList [PStr "openai"])]), world_bound)
  /\ DNADirectIntegration.llm_summary (PStr "notes") world_bound
     = (Ok (PDict [("summary", PStr "ok"); ("request", PList [PStr "notes"])]),
        world_bound).
Proof.
  split.
  - apply (proj1 (pass_through world_bound Samples.models_ok PNone
                    (PDict [("available_models", PList [PStr "gpt"]);
                            ("enabled_providers", PList [PStr "openai"])]))).
    + split; reflexivity.
    + reflexivity.
  - apply (proj2 (pass_through world_bound Samples.summary_echo (PStr "notes")
                    (PDict [("summary", PStr "ok");
                            ("request", PList [PStr "notes"])]))).
    + split; reflexivity.
    + reflexivity.
Defined.

(** ** Calls during which the bound function raises *)

(** C7, as the code has it.  When the bound function raises an exception [e]
    whose class derives from [Exception], the method returns (it does not
    raise) its fallback shape: for [get_available_models] the [error] field
    is [str(e)]; for [llm_summary] the message is carried by the [summary]
    field as "Error: " followed by [str(e)], the provider is "error" and the
    [error] field is the boolean [True].  Only a line on [stdout] is added to
    the world. *)
Theorem exception_fallback (w : World) (h : Callable) (e : pyexc) (request_data : pyval) :
  isinstance_Exception e = true ->
  (models_bound w h -> h [] = Raise e ->
   exists v w',
     DNADirectIntegration.get_available_models w = (Ok v, w')
     /\ v = models_fallback (exc_str e)
     /\ field v "error" = Some (PStr (exc_str e))
     /\ globals w' = globals w)
  /\ (summary_bound w h -> h [request_data] = Raise e ->
      exists v w',
        DNADirectIntegration.llm_summary request_data w = (Ok v, w')
        /\ v = summary_fallback "error" (exc_str e)
        /\ field v "summary" = Some (PStr ("Error: " ++ exc_str e))
        /\ field v "error" = Some (PBool true)
        /\ globals w' = globals w).
Proof.
  intros I. split; intros B E.
  - rewrite (get_available_models_bound w h B), E, I.
    do 2 eexists. repeat split.
  - rewrite (llm_summary_bound request_data w h B), E, I.
    do 2 eexists. repeat split.
Qed.

Lemma exception_fallback_witness :
  isinstance_Exception (Samples.RuntimeError "boom") = true
  /\ fst (DNADirectIntegration.get_available_models world_models_fail)
     = Ok (models_fallback "boom")
  /\ fst (DNADirectIntegration.llm_summary PNone world_summary_fails)
     = Ok (summary_fallback "error" "boom").
Proof.
  split; [reflexivity|]. split.
  - destruct (proj1 (exception_fallback world_models_fail
                       (Samples.raising (Samples.RuntimeError "boom"))
                       (Samples.RuntimeError "boom") PNone eq_refl))
      as (v & w' & R & V & _); [split; reflexivity | reflexivity |].
    rewrite R, V. reflexivity.
  - destruct (proj2 (exception_fallback world_summary_fails
                       (Samples.raising (Samples.RuntimeError "boom"))
                       (Samples.RuntimeError "boom") PNone eq_refl))
      as (v & w' & R & V & _); [split; reflexivity | reflexivity |].
    rewrite R, V. reflexivity.
Defined.

(** C7 as stated fails twice.  After [RuntimeError("boom")] the [error]
    field of the summary fallback is [True], not the message; and an
    exception outside [Exception], here the cancellation of the awaiting
    task, leaves [llm_summary] as an exception. *)
Lemma summary_error_field_is_not_the_message :
  (exists v,
      fst (DNADirectIntegration.llm_summary PNone world_summary_fails) = Ok v
      /\ field v "error" = Some (PBool true)
      /\ field v "error" <> Some (PStr "boom"))
  /\ fst (DNADirectIntegration.llm_summary PNone world_summary_cancelled)
     = Raise Samples.CancelledError.
Proof.
  split; [|reflexivity].
  eexists. split; [reflexivity|]. split; [reflexivity|discriminate].
Qed.

(** ** No exception of class [Exception] leaves the facade *)

(** C2, as the code has it.  In any world, if the function a method forwards
    to raises nothing but exceptions deriving from [Exception], the method
    returns a value: the function's result (for [get_config], the result
    itself or its byte payload decoded and parsed), or the method's fallback
    shape with its error field filled.  A payload that fails to decode or to
    parse is among the cases that end in the fallback. *)
Theorem facade_returns (codec : Codec) (w : World) (request_data : pyval) :
  ((forall h, get_available_models_endpoint (globals w) = Some h ->
              raises_only_Exception (h [])) ->
   exists v w',
     DNADirectIntegration.get_available_models w = (Ok v, w')
     /\ ((exists h, models_bound w h /\ h [] = Ok v)
         \/ exists err, v = models_fallback err))
  /\ ((forall h, llm_summary (globals w) = Some h ->
                 raises_only_Exception (h [request_data])) ->
      exists v w',
        DNADirectIntegration.llm_summary request_data w = (Ok v, w')
        /\ ((exists h, summary_bound w h /\ h [request_data] = Ok v)
            \/ exists provider err, v = summary_fallback provider err))
  /\ ((forall h, get_config (globals w) = Some h -> raises_only_Exception (h [])) ->
      exists v w',
        DNADirectIntegration.get_config codec w = (Ok v, w')
        /\ ((exists h r, config_bound w h /\ h [] = Ok r
                         /\ (v = r
                             \/ exists payload,
                                 (getattr r "content" = Some (PBytes payload)
                                  \/ getattr r "body" = Some (PBytes payload))
                                 /\ decode_and_parse codec payload = Parsed v))
            \/ exists err, v = config_fallback err)).
Proof.
  repeat split; intros R.
  - destruct (negb (DNA_BACKEND_AVAILABLE (globals w))
              || is_None (get_available_models_endpoint (globals w))) eqn:G.
    + rewrite get_available_models_guard by exact G. fallback_case.
    + apply orb_false_elim in G. destruct G as [A B].
      apply negb_false_iff in A.
      destruct (get_available_models_endpoint (globals w)) as [h|] eqn:E;
        [|discriminate B].
      assert (Bd : models_bound w h) by (split; assumption).
      rewrite (get_available_models_bound w h Bd).
      specialize (R h eq_refl).
      destruct (h []) as [v|e] eqn:C.
      * do 2 eexists. split; [reflexivity|]. left. eauto.
      * rewrite (R e eq_refl). fallback_case.
  - destruct (negb (DNA_BACKEND_AVAILABLE (globals w))
              || is_None (llm_summary (globals w))) eqn:G.
    + rewrite llm_summary_guard by exact G. fallback_case.
    + apply orb_false_elim in G. destruct G as [A B].
      apply negb_false_iff in A.
      destruct (llm_summary (globals w)) as [h|] eqn:E; [|discriminate B].
      assert (Bd : summary_bound w h) by (split; assumption).
      rewrite (llm_summary_bound request_data w h Bd).
      specialize (R h eq_refl).
      destruct (h [request_data]) as [v|e] eqn:C.
      * do 2 eexists. split; [reflexivity|]. left. eauto.
      * rewrite (R e eq_refl). fallback_case.
  - destruct (negb (DNA_BACKEND_AVAILABLE (globals w))
              || is_None (get_config (globals w))) eqn:G.
    + rewrite get_config_guard by exact G. fallback_case.
    + apply orb_false_elim in G. destruct G as [A B].
      apply negb_false_iff in A.
      destruct (get_config (globals w)) as [h|] eqn:E; [|discriminate B].
      assert (Bd : config_bound w h) by (split; assumption).
      rewrite (get_config_bound codec w h Bd).
      specialize (R h eq_refl). unfold config_handled.
      destruct (h []) as [r|e] eqn:C.
      * destruct (normalised codec r) as [v|e] eqn:N.
        -- do 2 eexists. split; [reflexivity|]. left. exists h, r.
           split; [exact Bd|]. split; [exact C|].
           revert N. unfold normalised, decode_and_parse.
           destruct (getattr r "content") as [c|] eqn:Hc.
           ++ destruct c; payload_cases; intros N; inversion N; subst.
              right. eexists. split; [left; reflexivity|].
              rewrite Heqp. assumption.
           ++ destruct (getattr r "body") as [c|] eqn:Hb.
              ** destruct c; payload_cases; intros N; inversion N; subst.
                 right. eexists. split; [right; reflexivity|].
                 rewrite Heqp. assumption.
              ** intros N; inversion N. left. reflexivity.
        -- rewrite (normalised_raises_Exception codec r e N). fallback_case.
      * rewrite (R e eq_refl). fallback_case.
Qed.

Lemma facade_returns_witness :
  (forall h, get_config (globals world_config_malformed) = Some h ->
             raises_only_Exception (h []))
  /\ exists v w',
      DNADirectIntegration.get_config Samples.codec world_config_malformed = (Ok v, w')
      /\ ((exists h r, config_bound world_config_malformed h /\ h [] = Ok r
                       /\ (v = r
                           \/ exists payload,
                               (getattr r "content" = Some (PBytes payload)
                                \/ getattr r "body" = Some (PBytes payload))
                               /\ decode_and_parse Samples.codec payload = Parsed v))
          \/ exists err, v = config_fallback err).
Proof.
  assert (H : forall h, get_config (globals world_config_malformed) = Some h ->
                        raises_only_Exception (h [])).
  { intros h E. inversion E; subst. intros e R. discriminate R. }
  split; [exact H|].
  exact (proj2 (proj2 (facade_returns Samples.codec world_config_malformed PNone)) H).
Defined.

(** C2 as stated fails: [KeyboardInterrupt] does not derive from
    [Exception], the handler of [get_config] does not apply, and the
    exception reaches the caller. *)
Lemma interrupt_leaves_get_config :
  DNADirectIntegration.get_config Samples.codec world_config_interrupted
  = (Raise Samples.KeyboardInterrupt, world_config_interrupted).
Proof. reflexivity. Qed.

(** ** The keys of a response *)

(** C8, as the code has it.  For each method the two fallback branches have
    the same keys: whether the method answers because the backend is
    unavailable (flag false or handle [None]) or because the call failed with
    an exception deriving from [Exception] (raised by the bound function or,
    for [get_config], while decoding or parsing the payload), the response is
    a dictionary with the method's fixed list of keys.  The successful branch
    is not part of the statement: there the response is what the backend
    returned. *)
Theorem fallback_keys (codec : Codec) (w : World) (request_data : pyval) :
  ((negb (DNA_BACKEND_AVAILABLE (globals w))
    || is_None (get_available_models_endpoint (globals w)) = true
    \/ exists h e, models_bound w h /\ h [] = Raise e /\ isinstance_Exception e = true) ->
   exists v w',
     DNADirectIntegration.get_available_models w = (Ok v, w')
     /\ keys_of v = models_keys)
  /\ ((negb (DNA_BACKEND_AVAILABLE (globals w)) || is_None (llm_summary (globals w)) = true
       \/ exists h e, summary_bound w h /\ h [request_data] = Raise e
                      /\ isinstance_Exception e = true) ->
      exists v w',
        DNADirectIntegration.llm_summary request_data w = (Ok v, w')
        /\ keys_of v = summary_keys)
  /\ ((negb (DNA_BACKEND_AVAILABLE (globals w)) || is_None (get_config (globals w)) = true
       \/ (exists h e, config_bound w h /\ h [] = Raise e
                       /\ isinstance_Exception e = true)
       \/ exists h r e, config_bound w h /\ h [] = Ok r
                        /\ normalised codec r = Raise e) ->
      exists v w',
        DNADirectIntegration.get_config codec w = (Ok v, w')
        /\ keys_of v = config_keys).
Proof.
  repeat split.
  - intros [G | (h & e & B & E & I)].
    + rewrite get_available_models_guard by exact G. do 2 eexists. split; reflexivity.
    + rewrite (get_available_models_bound w h B), E, I.
      do 2 eexists. split; reflexivity.
  - intros [G | (h & e & B & E & I)].
    + rewrite llm_summary_guard by exact G. do 2 eexists. split; reflexivity.
    + rewrite (llm_summary_bound request_data w h B), E, I.
      do 2 eexists. split; reflexivity.
  - intros [G | [(h & e & B & E & I) | (h & r & e & B & E & N)]].
    + rewrite get_config_guard by exact G. do 2 eexists. split; reflexivity.
    + rewrite (get_config_bound codec w h B), E. unfold config_handled. rewrite I.
      do 2 eexists. split; reflexivity.
    + rewrite (get_config_bound codec w h B), E, N. unfold config_handled.
      rewrite (normalised_raises_Exception codec r e N).
      do 2 eexists. split; reflexivity.
Qed.

Lemma fallback_keys_witness :
  (exists v w',
      DNADirectIntegration.get_available_models world_models_fail = (Ok v, w')
      /\ keys_of v = models_keys)
  /\ (exists v w',
         DNADirectIntegration.llm_summary PNone Samples.unbound = (Ok v, w')
         /\ keys_of v = summary_keys)
  /\ (exists v w',
         DNADirectIntegration.get_config Samples.codec world_config_malformed = (Ok v, w')
         /\ keys_of v = config_keys).
Proof.
  split; [|split].
  - apply (proj1 (fallback_keys Samples.codec world_models_fail PNone)).
    right. exists (Samples.raising (Samples.RuntimeError "boom")),
             (Samples.RuntimeError "boom").
    split; [split; reflexivity|]. split; reflexivity.
  - apply (proj1 (proj2 (fallback_keys Samples.codec Samples.unbound PNone))).
    left. reflexivity.
  - apply (proj2 (proj2 (fallback_keys Samples.codec world_config_malformed PNone))).
    right. right.
    exists (Samples.config_response "content" "{x"),
           (PObj "JSONResponse" [("content", PBytes (Samples.bytes_of "{x"))]),
           (JSONDecodeError "Expecting value: line 1 column 1 (char 0)").
    split; [split; reflexivity|]. split; reflexivity.
Defined.

(** C8 as stated fails on the successful branch: the models function returns
    a dictionary without the keys [error], [disable_llm] and
    [available_prompt_types]; the facade passes it on, so the keys of the
    successful response differ from the keys of the fallback. *)
Lemma success_keys_differ_from_fallback_keys :
  exists v_ok v_fallback,
    fst (DNADirectIntegration.get_available_models world_bound) = Ok v_ok
    /\ fst (DNADirectIntegration.get_available_models Samples.unbound) = Ok v_fallback
    /\ keys_of v_ok = ["available_models"; "enabled_providers"]
    /\ In "error" (keys_of v_fallback)
    /\ ~ In "error" (keys_of v_ok).
Proof.
  do 2 eexists. split; [reflexivity|]. split; [reflexivity|].
  split; [reflexivity|]. split.
  - simpl. tauto.
  - simpl. intros [H | [H | []]]; discriminate H.
Qed.

(** ** Normalising the configuration response *)



(** ** The binder returns *)

(** C9, as the code has it.  In every environment whose resolution steps
    raise nothing but exceptions deriving from [Exception] - a missing
    directory, a missing file, a spec that cannot be created, a failing
    import, a missing attribute - and from every world, the binder returns
    normally.  In every environment whatsoever, an exception that does leave
    the binder does not derive from [Exception]. *)
Theorem binder_returns (env : Env) (w : World) :
  (env_raises_only_Exception env ->
   exists w', initialize_dna_backend env w = (Ok tt, w'))
  /\ (forall e, fst (initialize_dna_backend env w) = Raise e ->
                isinstance_Exception e = false).
Proof.
  split; [|intros e; apply binder_escape].
  intros [HI HS]. run_binder.
  binder_cases; try (eexists; reflexivity); exfalso.
  all: match goal with
       | H : import_module _ _ _ = Raise ?e |- _ =>
           pose proof (HI _ _ e H); congruence
       | S : spec_from_file_location _ _ _ = Some ?s,
         H : module_from_spec ?s = Raise ?e |- _ =>
           pose proof (proj1 (HS _ _ _ S) e H); congruence
       | S : spec_from_file_location _ _ _ = Some ?s,
         H : exec_module ?s = Raise ?e |- _ =>
           pose proof (proj2 (HS _ _ _ S) e H); congruence
       end.
Qed.

Lemma binder_returns_witness :
  env_raises_only_Exception Samples.env_absent
  /\ exists w', initialize_dna_backend Samples.env_absent (initial_world []) = (Ok tt, w').
Proof.
  assert (H : env_raises_only_Exception Samples.env_absent).
  { split.
    - intros path name e R. inversion R. reflexivity.
    - intros name location spec S. discriminate S. }
  split; [exact H|].
  exact (proj1 (binder_returns Samples.env_absent (initial_world [])) H).
Defined.

(** C9 as stated fails: [llm_service] calls [sys.exit] while it is imported;
    [SystemExit] does not derive from [Exception], so the handler at the top
    of the binder does not apply and the binder raises. *)
Lemma exit_during_import_leaves_binder :
  fst (initialize_dna_backend Samples.env_exits (initial_world []))
  = Raise (Samples.SystemExit "1").
Proof. reflexivity. Qed.

(** ** All or nothing *)

(** C4, as the code has it.  Whenever either resolution step fails - for any
    reason, and also when step 1 succeeded before step 2 failed - the world
    the binder leaves has the flag false and no configuration function; and
    although the handles step 1 obtained are not cleared from the globals,
    none is usable through the facade: each of the three methods returns its
    unavailable fallback, for every payload, and the world is unchanged. *)
Theorem binding_failure_disables_facade
  (env : Env) (path : list string) (codec : Codec) (request_data : pyval) :
  resolved env (search_path env path) = None ->
  let w' := snd (initialize_dna_backend env (initial_world path)) in
  DNA_BACKEND_AVAILABLE (globals w') = false
  /\ get_config (globals w') = None
  /\ DNADirectIntegration.get_available_models w'
     = (Ok (models_fallback unavailable_message), w')
  /\ DNADirectIntegration.llm_summary request_data w'
     = (Ok (summary_fallback "none" unavailable_message), w')
  /\ DNADirectIntegration.get_config codec w'
     = (Ok (config_fallback unavailable_message), w').
Proof.
  intros R w'.
  destruct (binder_unresolved env path R) as [A C]. fold w' in A, C.
  split; [exact A|]. split; [exact C|].
  repeat split.
  - apply get_available_models_guard. rewrite A. reflexivity.
  - apply llm_summary_guard. rewrite A. reflexivity.
  - apply get_config_guard. rewrite A. reflexivity.
Qed.

Lemma binding_failure_disables_facade_witness :
  step1 Samples.env_no_main (search_path Samples.env_no_main [])
  = Some (Some Samples.models_ok, Some Samples.summary_echo)
  /\ step2 Samples.env_no_main = None
  /\ DNA_BACKEND_AVAILABLE (globals world_without_main) = false
  /\ DNADirectIntegration.get_available_models world_without_main
     = (Ok (models_fallback unavailable_message), world_without_main).
Proof.
  split; [reflexivity|]. split; [reflexivity|].
  destruct (binding_failure_disables_facade Samples.env_no_main [] Samples.codec PNone
              eq_refl) as (A & _ & B & _).
  split; [exact A | exact B].
Defined.

(** C4 as stated fails: step 1 succeeds, [main.py] is missing, and the
    binder leaves the two functions of step 1 in the globals; the handler
    only clears the flag. *)
Lemma step1_handles_are_kept :
  step1 Samples.env_no_main (search_path Samples.env_no_main [])
  = Some (Some Samples.models_ok, Some Samples.summary_echo)
  /\ step2 Samples.env_no_main = None
  /\ globals world_without_main
     = mk_globals (Some Samples.models_ok) (Some Samples.summary_echo) None false
  /\ get_available_models_endpoint (globals world_without_main) <> None
  /\ llm_summary (globals world_without_main) <> None.
Proof.
  split; [reflexivity|]. split; [reflexivity|]. split; [reflexivity|].
  split; discriminate.
Qed.

(** ** The availability invariant *)

(** C3, as the code has it.  Start from the globals of lines 19-22 and run
    the binder in any environment.  In the world it leaves, the flag is true
    exactly when both resolution steps completed; if the three globals all
    hold a function the flag is true; and if the flag is true the three
    globals all hold a function provided the backend binds none of the three
    names to [None] - the binder stores each attribute as it finds it and
    does not test it.  Constructing the facade and serving any sequence of
    calls afterwards changes none of the four globals. *)
Theorem availability_invariant
  (env : Env) (path : list string) (codec : Codec) (calls : list facade_call) :
  let w0 := snd (initialize_dna_backend env (initial_world path)) in
  let w1 := snd (DNADirectIntegration.__init__ w0) in
  let w2 := snd (serve codec calls w1) in
  (DNA_BACKEND_AVAILABLE (globals w0) = true
   <-> resolved env (search_path env path) <> None)
  /\ (get_available_models_endpoint (globals w0) <> None
      /\ llm_summary (globals w0) <> None
      /\ get_config (globals w0) <> None ->
      DNA_BACKEND_AVAILABLE (globals w0) = true)
  /\ (binds_no_None env path ->
      DNA_BACKEND_AVAILABLE (globals w0) = true ->
      get_available_models_endpoint (globals w0) <> None
      /\ llm_summary (globals w0) <> None
      /\ get_config (globals w0) <> None)
  /\ globals w1 = globals w0
  /\ globals w2 = globals w0.
Proof.
  intros w0 w1 w2.
  assert (I1 : globals w1 = globals w0) by apply init_globals.
  assert (I2 : globals w2 = globals w0).
  { unfold w2. rewrite serve_globals. exact I1. }
  destruct (resolved env (search_path env path)) as [[[f g] c]|] eqn:R.
  - destruct (binder_resolved env (initial_world path) f g c R) as [_ G].
    fold w0 in G. rewrite G in I1, I2. rewrite G. simpl.
    split; [split; [discriminate | reflexivity]|].
    split; [reflexivity|].
    split; [|split; assumption].
    intros [B1 B2] _. revert R. unfold resolved, step1, step2.
    destruct (import_module env (search_path env path) "llm_service") as [m|e] eqn:I;
      [|discriminate].
    destruct (B1 m eq_refl) as [N1 N2].
    destruct (assoc "get_available_models_endpoint" m) as [f'|]; [|discriminate].
    destruct (assoc "llm_summary" m) as [g'|]; [|discriminate].
    destruct (os_path_exists env (os_path_join (DNA_BACKEND_PATH env) "main.py"));
      [|discriminate].
    destruct (spec_from_file_location env "dna_backend_main"
                (os_path_join (DNA_BACKEND_PATH env) "main.py")) as [spec|] eqn:S;
      [|discriminate].
    destruct (module_from_spec spec); [|discriminate].
    destruct (exec_module spec) as [mm|e] eqn:X; [|discriminate].
    pose proof (B2 spec mm eq_refl X) as N3.
    destruct (assoc "get_config" mm) as [c'|]; [|discriminate].
    intros H. inversion H; subst. repeat split; congruence.
  - destruct (binder_unresolved env path R) as [A C]. fold w0 in A, C.
    rewrite A, C.
    split; [split; [discriminate | intros N; contradiction N; reflexivity]|].
    split; [intros (_ & _ & N); contradiction N; reflexivity|].
    split; [intros _ H; discriminate H|].
    split; assumption.
Qed.

Lemma availability_invariant_witness :
  binds_no_None Samples.env_complete []
  /\ DNA_BACKEND_AVAILABLE
       (globals (snd (initialize_dna_backend Samples.env_complete (initial_world []))))
     = true
  /\ get_available_models_endpoint
       (globals (snd (initialize_dna_backend Samples.env_complete (initial_world []))))
     <> None
  /\ llm_summary
       (globals (snd (initialize_dna_backend Samples.env_complete (initial_world []))))
     <> None
  /\ get_config
       (globals (snd (initialize_dna_backend Samples.env_complete (initial_world []))))
     <> None.
Proof.
  assert (B : binds_no_None Samples.env_complete []).
  { split.
    - intros m E. inversion E; subst. split; discriminate.
    - intros spec mm S X. inversion S; subst. inversion X; subst. discriminate. }
  split; [exact B|]. split; [reflexivity|].
  exact (proj1 (proj2 (proj2
           (availability_invariant Samples.env_complete [] Samples.codec []))) B eq_refl).
Defined.

(** C3 as stated fails: [main.py] binds [get_config] to [None]; both steps
    complete, line 53 stores the [None] and line 56 sets the flag, so the
    flag is true beside a null handle. *)
Lemma flag_set_beside_null_handle :
  resolved env_config_None (search_path env_config_None [])
  = Some (Some Samples.models_ok, Some Samples.summary_echo, None)
  /\ globals (snd (initialize_dna_backend env_config_None (initial_world [])))
     = mk_globals (Some Samples.models_ok) (Some Samples.summary_echo) None true
  /\ ~ (DNA_BACKEND_AVAILABLE
          (globals (snd (initialize_dna_backend env_config_None (initial_world []))))
        = true
        <-> get_available_models_endpoint
              (globals (snd (initialize_dna_backend env_config_None (initial_world []))))
            <> None
            /\ llm_summary
                 (globals (snd (initialize_dna_backend env_config_None (initial_world []))))
               <> None
            /\ get_config
                 (globals (snd (initialize_dna_backend env_config_None (initial_world []))))
               <> None).
Proof.
  split; [reflexivity|]. split; [reflexivity|].
  intros [H _]. destruct (H eq_refl) as (_ & _ & N). apply N. reflexivity.
Qed.

(** * Further properties of the binder *)

Lemma path_test_In (p : string) (path : list string) :
  existsb (String.eqb p) path = true <-> In p path.
Proof.
  rewrite existsb_exists. split.
  - intros (x & I & E). apply String.eqb_eq in E. subst. exact I.
  - intros I. exists p. split; [exact I | apply String.eqb_refl].
Qed.

Lemma search_path_has_backend (env : Env) (path : list string) :
  existsb (String.eqb (DNA_BACKEND_PATH env)) (search_path env path) = true.
Proof.
  unfold search_path.
  destruct (existsb (String.eqb (DNA_BACKEND_PATH env)) path) eqn:E; [exact E|].
  simpl. rewrite String.eqb_refl. reflexivity.
Qed.


(** The binder leaves [sys.path] as lines 28-29 made it. *)
Lemma binder_sys_path_eq (env : Env) (w : World) :
  sys_path (snd (initialize_dna_backend env w)) = search_path env (sys_path w).
Proof.
  run_binder. binder_cases; reflexivity.
Qed.

(** The globals the binder leaves, field by field, from any world. *)
Lemma binder_globals_any (env : Env) (w : World) :
  let p := search_path env (sys_path w) in
  let g := globals w in
  let g' := globals (snd (initialize_dna_backend env w)) in
  get_available_models_endpoint g'
  = match import_module env p "llm_service" with
    | Ok m =>
        match assoc "get_available_models_endpoint" m with
        | Some f => f
        | None => get_available_models_endpoint g
        end
    | Raise _ => get_available_models_endpoint g
    end
  /\ llm_summary g'
     = match step1 env p with
       | Some (_, s) => s
       | None => llm_summary g
       end
  /\ get_config g'
     = match resolved env p with
       | Some (_, _, c) => c
       | None => get_config g
       end
  /\ DNA_BACKEND_AVAILABLE g'
     = match fst (initialize_dna_backend env w) with
       | Ok _ => negb (is_None (resolved env p))
       | Raise _ => DNA_BACKEND_AVAILABLE g
       end.
Proof.
  run_binder. binder_cases; repeat split; reflexivity.
Qed.

(** Whether the binder returns or raises is decided by the environment and
    the search path. *)
Lemma binder_outcome_any (env : Env) (w : World) :
  let p := search_path env (sys_path w) in
  fst (initialize_dna_backend env w)
  = match import_module env p "llm_service" with
    | Raise e => if isinstance_Exception e then Ok tt else Raise e
    | Ok m =>
        match step1 env p with
        | None => Ok tt
        | Some _ =>
            let dna_main_path := os_path_join (DNA_BACKEND_PATH env) "main.py" in
            if os_path_exists env dna_main_path then
              match spec_from_file_location env "dna_backend_main" dna_main_path with
              | None => Ok tt
              | Some spec =>
                  match module_from_spec spec with
                  | Raise e => if isinstance_Exception e then Ok tt else Raise e
                  | Ok _ =>
                      match exec_module spec with
                      | Raise e => if isinstance_Exception e then Ok tt else Raise e
                      | Ok _ => Ok tt
                      end
                  end
              end
            else Ok tt
        end
    end.
Proof.
  run_binder. binder_cases; reflexivity.
Qed.

Lemma globals_ext (g g' : Globals) :
  get_available_models_endpoint g = get_available_models_endpoint g' ->
  llm_summary g = llm_summary g' ->
  get_config g = get_config g' ->
  DNA_BACKEND_AVAILABLE g = DNA_BACKEND_AVAILABLE g' ->
  g = g'.
Proof.
  destruct g, g'; simpl; intros; subst; reflexivity.
Qed.

(** X1. Lines 28-29 keep [sys.path] well formed, in every environment, from
    every world and whether the binder returns or raises: afterwards the
    backend directory is on the path; a path that already had it is left
    exactly as it was; otherwise the directory is put in front and the
    former entries follow in their order; a path without duplicates stays
    without duplicates. *)
Theorem binder_keeps_search_path (env : Env) (w : World) :
  let w' := snd (initialize_dna_backend env w) in
  In (DNA_BACKEND_PATH env) (sys_path w')
  /\ (In (DNA_BACKEND_PATH env) (sys_path w) -> sys_path w' = sys_path w)
  /\ (~ In (DNA_BACKEND_PATH env) (sys_path w) ->
      sys_path w' = DNA_BACKEND_PATH env :: sys_path w)
  /\ (NoDup (sys_path w) -> NoDup (sys_path w')).
Proof.
  intros w'. unfold w'. rewrite binder_sys_path_eq.
  split; [apply path_test_In, search_path_has_backend|].
  unfold search_path.
  destruct (existsb (String.eqb (DNA_BACKEND_PATH env)) (sys_path w)) eqn:E.
  - apply path_test_In in E. repeat split; auto. intros N. contradiction.
  - assert (N : ~ In (DNA_BACKEND_PATH env) (sys_path w)).
    { intros I. apply path_test_In in I. congruence. }
    repeat split; auto.
    + intros I. contradiction.
    + intros D. constructor; assumption.
Qed.

Lemma binder_keeps_search_path_witness :
  sys_path (snd (initialize_dna_backend Samples.env_absent
                   (initial_world ["/usr/lib/python3"; "/app"])))
  = ["/app/dna/experimental/spi/note_assistant_v2/backend"; "/usr/lib/python3"; "/app"].
Proof.
  apply (proj1 (proj2 (proj2 (binder_keeps_search_path Samples.env_absent
                                (initial_world ["/usr/lib/python3"; "/app"]))))).
  simpl. intros [H | [H | []]]; discriminate H.
Defined.


(** X3. The flag tells how the latest completed run of the binder went,
    whatever it was before: from every world, when the binder returns, the
    flag is true exactly when both resolution steps succeeded; when the
    binder raises instead, the flag keeps the value it had. *)
Theorem flag_reflects_latest_run (env : Env) (w : World) :
  let w' := snd (initialize_dna_backend env w) in
  (fst (initialize_dna_backend env w) = Ok tt ->
   (DNA_BACKEND_AVAILABLE (globals w') = true
    <-> resolved env (search_path env (sys_path w)) <> None))
  /\ (forall e, fst (initialize_dna_backend env w) = Raise e ->
                DNA_BACKEND_AVAILABLE (globals w') = DNA_BACKEND_AVAILABLE (globals w)).
Proof.
  intros w'. destruct (binder_globals_any env w) as (_ & _ & _ & D).
  cbv zeta in D. fold w' in D. split.
  - intros O. rewrite O in D. rewrite D.
    destruct (resolved env (search_path env (sys_path w))); simpl.
    + split; [discriminate | reflexivity].
    + split; [discriminate | intros N; contradiction N; reflexivity].
  - intros e O. rewrite O in D. exact D.
Qed.

Lemma flag_reflects_latest_run_witness :
  DNA_BACKEND_AVAILABLE (globals world_bound) = true
  /\ fst (initialize_dna_backend Samples.env_no_main world_bound) = Ok tt
  /\ DNA_BACKEND_AVAILABLE
       (globals (snd (initialize_dna_backend Samples.env_no_main world_bound))) = false
  /\ DNA_BACKEND_AVAILABLE
       (globals (snd (initialize_dna_backend Samples.env_exits world_bound))) = true.
Proof.
  split; [reflexivity|]. split; [reflexivity|]. split.
  - destruct (proj1 (flag_reflects_latest_run Samples.env_no_main world_bound) eq_refl)
      as [T _].
    destruct (DNA_BACKEND_AVAILABLE
                (globals (snd (initialize_dna_backend Samples.env_no_main world_bound))));
      [|reflexivity].
    exfalso. apply (T eq_refl). reflexivity.
  - apply (proj2 (flag_reflects_latest_run Samples.env_exits world_bound)
             (Samples.SystemExit "1")).
    reflexivity.
Defined.

(** What the binder registers in [sys.modules], from any world. *)
Lemma binder_sys_modules_any (env : Env) (w : World) :
  let p := search_path env (sys_path w) in
  let dna_main_path := os_path_join (DNA_BACKEND_PATH env) "main.py" in
  sys_modules (snd (initialize_dna_backend env w))
  = match step1 env p with
    | None => sys_modules w
    | Some _ =>
        if os_path_exists env dna_main_path then
          match spec_from_file_location env "dna_backend_main" dna_main_path with
          | None => sys_modules w
          | Some spec =>
              match module_from_spec spec with
              | Ok _ => "dna_backend_main" :: sys_modules w
              | Raise _ => sys_modules w
              end
          end
        else sys_modules w
    end.
Proof.
  run_binder. binder_cases; reflexivity.
Qed.

(** X4. The handles are bound in the order of the source.  Starting from the
    globals of lines 19-22, in every environment and whether the binder
    returns or raises: a summary global that is not [None] means step 1
    (import and both attributes) completed; a configuration global that is
    not [None] means both steps completed and the flag is set; when step 1
    completes, the first two globals hold exactly what [llm_service] binds
    the two names to; and a [llm_service] that has the models name, bound to
    [f], but lacks [llm_summary] leaves the globals as [f], [None], [None]
    and a false flag. *)
Theorem handles_bound_in_order (env : Env) (path : list string) :
  let g := globals (snd (initialize_dna_backend env (initial_world path))) in
  (llm_summary g <> None -> step1 env (search_path env path) <> None)
  /\ (get_config g <> None ->
      resolved env (search_path env path) <> None /\ DNA_BACKEND_AVAILABLE g = true)
  /\ (forall f s,
         step1 env (search_path env path) = Some (f, s) ->
         get_available_models_endpoint g = f /\ llm_summary g = s)
  /\ (forall m f,
         import_module env (search_path env path) "llm_service" = Ok m ->
         assoc "get_available_models_endpoint" m = Some f ->
         assoc "llm_summary" m = None ->
         g = mk_globals f None None false).
Proof.
  intros g.
  destruct (binder_globals_any env (initial_world path)) as (A & B & C & D).
  cbv zeta in A, B, C, D. fold g in A, B, C, D. simpl in A, B, C, D.
  split; [|split; [|split]].
  - rewrite B. destruct (step1 env (search_path env path)) as [[f s]|]; congruence.
  - intros N. destruct (resolved env (search_path env path)) as [[[f s] c]|] eqn:R.
    + split; [discriminate|].
      destruct (binder_resolved env (initial_world path) f s c R) as [_ G].
      fold g in G. rewrite G. reflexivity.
    + contradiction N.
  - intros f s H. rewrite B, H. split; [|reflexivity].
    rewrite A. unfold step1 in H.
    destruct (import_module env (search_path env path) "llm_service") as [m|e];
      [|discriminate H].
    destruct (assoc "get_available_models_endpoint" m) as [f'|]; [|discriminate H].
    destruct (assoc "llm_summary" m) as [s'|]; [|discriminate H].
    inversion H. reflexivity.
  - intros m f I F S.
    assert (S1 : step1 env (search_path env path) = None).
    { unfold step1. rewrite I, F, S. reflexivity. }
    assert (R : resolved env (search_path env path) = None).
    { unfold resolved. rewrite S1. reflexivity. }
    rewrite I, F in A. rewrite S1 in B. rewrite R in C, D.
    apply globals_ext; simpl; try assumption.
    rewrite D. destruct (fst (initialize_dna_backend env (initial_world path)));
      reflexivity.
Qed.

Lemma handles_bound_in_order_witness :
  globals (snd (initialize_dna_backend env_no_summary (initial_world [])))
  = mk_globals (Some Samples.models_ok) None None false.
Proof.
  apply (proj2 (proj2 (proj2 (handles_bound_in_order env_no_summary [])))
           [("get_available_models_endpoint", Some Samples.models_ok)]
           (Some Samples.models_ok));
    reflexivity.
Defined.

(** X5. Step 2 is not attempted when step 1 fails.  If [llm_service] does
    not import or lacks one of the two names, the binder never looks for
    [main.py]: changing what [os.path.exists] and [spec_from_file_location]
    would answer changes neither the outcome nor the world the binder
    leaves; the summary and configuration globals keep their values, and the
    assignment of line 50 is not made ([dna_backend_main] is in the record of
    that line only if it was before). *)
Theorem step2_skipped_when_step1_fails
  (env : Env) (w : World)
  (exists' : string -> bool) (spec' : string -> string -> option ModuleSpec) :
  step1 env (search_path env (sys_path w)) = None ->
  initialize_dna_backend
    {| DNA_BACKEND_PATH := DNA_BACKEND_PATH env;
       import_module := import_module env;
       os_path_exists := exists';
       spec_from_file_location := spec' |} w
  = initialize_dna_backend env w
  /\ llm_summary (globals (snd (initialize_dna_backend env w))) = llm_summary (globals w)
  /\ get_config (globals (snd (initialize_dna_backend env w))) = get_config (globals w)
  /\ (In "dna_backend_main" (sys_modules (snd (initialize_dna_backend env w))) ->
      In "dna_backend_main" (sys_modules w)).
Proof.
  run_binder. simpl.
  binder_cases; intros H; try discriminate H; repeat split; auto.
Qed.

Lemma step2_skipped_when_step1_fails_witness :
  step1 Samples.env_absent (search_path Samples.env_absent []) = None
  /\ initialize_dna_backend
       {| DNA_BACKEND_PATH := DNA_BACKEND_PATH Samples.env_absent;
          import_module := import_module Samples.env_absent;
          os_path_exists := fun _ => true;
          spec_from_file_location := fun _ _ => Some Samples.main_spec |}
       (initial_world [])
     = initialize_dna_backend Samples.env_absent (initial_world []).
Proof.
  split; [reflexivity|].
  apply (step2_skipped_when_step1_fails Samples.env_absent (initial_world [])
           (fun _ => true) (fun _ _ => Some Samples.main_spec)).
  reflexivity.
Defined.

(** X6. The module object of [main.py] is registered before the file is
    executed (lines 50-51), and the handler does not take it out again: when
    step 1 succeeds, [main.py] exists, its spec and module object are made
    and executing it raises, [dna_backend_main] stays in [sys.modules] while
    no configuration function is bound; if the exception derives from
    [Exception] the binder returns with the flag false. *)
Theorem failed_execution_stays_registered
  (env : Env) (w : World) (f s : option Callable) (spec : ModuleSpec) (e : pyexc) :
  step1 env (search_path env (sys_path w)) = Some (f, s) ->
  os_path_exists env (os_path_join (DNA_BACKEND_PATH env) "main.py") = true ->
  spec_from_file_location env "dna_backend_main"
    (os_path_join (DNA_BACKEND_PATH env) "main.py") = Some spec ->
  module_from_spec spec = Ok tt ->
  exec_module spec = Raise e ->
  let w' := snd (initialize_dna_backend env w) in
  In "dna_backend_main" (sys_modules w')
  /\ get_config (globals w') = get_config (globals w)
  /\ (isinstance_Exception e = true ->
      fst (initialize_dna_backend env w) = Ok tt
      /\ DNA_BACKEND_AVAILABLE (globals w') = false).
Proof.
  intros H1 H2 H3 H4 H5 w'.
  pose proof (binder_sys_modules_any env w) as M.
  destruct (binder_globals_any env w) as (_ & _ & C & D).
  pose proof (binder_outcome_any env w) as O.
  cbv zeta in M, C, D, O. fold w' in M, C, D.
  assert (R : resolved env (search_path env (sys_path w)) = None).
  { unfold resolved, step2. rewrite H1, H2, H3, H4, H5. reflexivity. }
  rewrite R in C, D. rewrite H1, H2, H3, H4 in M. rewrite H1, H2, H3, H4, H5 in O.
  assert (I : exists m, import_module env (search_path env (sys_path w)) "llm_service"
                        = Ok m).
  { unfold step1 in H1.
    destruct (import_module env (search_path env (sys_path w)) "llm_service");
      [eauto | discriminate H1]. }
  destruct I as [m I]. rewrite I in O.
  split; [rewrite M; left; reflexivity|]. split; [exact C|].
  intros E. rewrite E in O. rewrite O in D. split; [exact O | exact D].
Qed.

Lemma failed_execution_stays_registered_witness :
  sys_modules (snd (initialize_dna_backend env_main_fails (initial_world [])))
  = ["dna_backend_main"]
  /\ In "dna_backend_main"
        (sys_modules (snd (initialize_dna_backend env_main_fails (initial_world []))))
  /\ get_config (globals (snd (initialize_dna_backend env_main_fails (initial_world []))))
     = None.
Proof.
  split; [reflexivity|].
  destruct (failed_execution_stays_registered env_main_fails (initial_world [])
              (Some Samples.models_ok) (Some Samples.summary_echo) failing_spec
              (Samples.RuntimeError "SHOTGRID_URL is not set")
              eq_refl eq_refl eq_refl eq_refl eq_refl) as (A & B & _).
  split; [exact A | exact B].
Defined.

(** X7. A missing [main.py] is reported by name.  When step 1 completes and
    [main.py] does not exist, the binder returns with the flag false, leaves
    the configuration global as it was, and the lines it prints are: the
    attempt, the success of step 1, the failure with the path it looked at,
    and the error type [FileNotFoundError]. *)
Theorem main_py_failure_report (env : Env) (w : World) (f s : option Callable) :
  step1 env (search_path env (sys_path w)) = Some (f, s) ->
  os_path_exists env (os_path_join (DNA_BACKEND_PATH env) "main.py") = false ->
  let dna_main_path := os_path_join (DNA_BACKEND_PATH env) "main.py" in
  let w' := snd (initialize_dna_backend env w) in
  fst (initialize_dna_backend env w) = Ok tt
  /\ DNA_BACKEND_AVAILABLE (globals w') = false
  /\ get_config (globals w') = get_config (globals w)
  /\ stdout w'
     = (stdout w
        ++ [("Attempting to import from: " ++ DNA_BACKEND_PATH env)%string;
            "Successfully imported llm_service functions";
            ("Failed to initialize DNA backend: "
             ++ "DNA backend main.py not found at: " ++ dna_main_path)%string;
            "Error type: FileNotFoundError"])%list.
Proof.
  run_binder. simpl. binder_cases.
  all: intros H; try discriminate H.
  all: intros H'; try discriminate H'.
  all: repeat split.
  all: repeat rewrite <- app_assoc.
  all: reflexivity.
Qed.

Lemma main_py_failure_report_witness :
  stdout (snd (initialize_dna_backend Samples.env_no_main (initial_world [])))
  = ["Attempting to import from: /app/dna/experimental/spi/note_assistant_v2/backend";
     "Successfully imported llm_service functions";
     "Failed to initialize DNA backend: DNA backend main.py not found at: /app/dna/experimental/spi/note_assistant_v2/backend/main.py";
     "Error type: FileNotFoundError"].
Proof.
  destruct (main_py_failure_report Samples.env_no_main (initial_world [])
              (Some Samples.models_ok) (Some Samples.summary_echo) eq_refl eq_refl)
    as (_ & _ & _ & L).
  rewrite L. reflexivity.
Defined.

(** A run in which both steps succeed writes nothing to [stderr]. *)
Lemma binder_stderr_resolved (env : Env) (w : World) (f g c : option Callable) :
  resolved env (search_path env (sys_path w)) = Some (f, g, c) ->
  stderr (snd (initialize_dna_backend env w)) = stderr w.
Proof.
  run_binder. binder_cases; intros H; try discriminate H; reflexivity.
Qed.

(** X8. The binder binds each global to the function of the same name, the
    first two from [llm_service] and [get_config] from [main.py].  From any
    world, when [llm_service] imports and exports [f] and [s] under the two
    names, [main.py] exists, its spec and module object are made, the file
    executes and exports [c] as [get_config], the binder returns, the globals
    hold exactly [f], [s], [c] and the flag, [dna_backend_main] is
    registered, and nothing is written to [stderr]. *)
Theorem binder_binds_exported_functions
  (env : Env) (w : World) (m mm : PyModule) (spec : ModuleSpec) (f s c : Callable) :
  import_module env (search_path env (sys_path w)) "llm_service" = Ok m ->
  assoc "get_available_models_endpoint" m = Some (Some f) ->
  assoc "llm_summary" m = Some (Some s) ->
  os_path_exists env (os_path_join (DNA_BACKEND_PATH env) "main.py") = true ->
  spec_from_file_location env "dna_backend_main"
    (os_path_join (DNA_BACKEND_PATH env) "main.py") = Some spec ->
  module_from_spec spec = Ok tt ->
  exec_module spec = Ok mm ->
  assoc "get_config" mm = Some (Some c) ->
  let w' := snd (initialize_dna_backend env w) in
  fst (initialize_dna_backend env w) = Ok tt
  /\ globals w' = mk_globals (Some f) (Some s) (Some c) true
  /\ In "dna_backend_main" (sys_modules w')
  /\ stderr w' = stderr w.
Proof.
  intros H1 H2 H3 H4 H5 H6 H7 H8 w'.
  assert (R : resolved env (search_path env (sys_path w))
              = Some (Some f, Some s, Some c)).
  { unfold resolved, step1, step2. rewrite H1, H2, H3, H4, H5, H6, H7, H8. reflexivity. }
  destruct (binder_resolved env w (Some f) (Some s) (Some c) R) as [O G]. fold w' in G.
  split; [exact O|]. split; [exact G|]. split.
  - unfold w'. rewrite binder_sys_modules_any. cbv zeta.
    unfold step1. rewrite H1, H2, H3, H4, H5, H6. left. reflexivity.
  - apply (binder_stderr_resolved env w (Some f) (Some s) (Some c) R).
Qed.

Lemma binder_binds_exported_functions_witness :
  globals (snd (initialize_dna_backend Samples.env_complete (initial_world ["/app"])))
  = mk_globals (Some Samples.models_ok) (Some Samples.summary_echo)
               (Some Samples.config_dict) true.
Proof.
  exact (proj1 (proj2
           (binder_binds_exported_functions Samples.env_complete (initial_world ["/app"])
              Samples.llm_service_module Samples.main_module Samples.main_spec
              Samples.models_ok Samples.summary_echo Samples.config_dict
              eq_refl eq_refl eq_refl eq_refl eq_refl eq_refl eq_refl eq_refl))).
Defined.

(** * Further properties of the module import and of the facade *)

(** In an environment that raises nothing outside [Exception], the binder
    returns. *)
Lemma binder_returns_ok (env : Env) (w : World) :
  env_raises_only_Exception env ->
  fst (initialize_dna_backend env w) = Ok tt.
Proof.
  intros [HI HS]. rewrite binder_outcome_any. cbv zeta.
  destruct (import_module env (search_path env (sys_path w)) "llm_service")
    as [m|e] eqn:I.
  - destruct (step1 env (search_path env (sys_path w))); [|reflexivity].
    destruct (os_path_exists env (os_path_join (DNA_BACKEND_PATH env) "main.py"));
      [|reflexivity].
    destruct (spec_from_file_location env "dna_backend_main"
                (os_path_join (DNA_BACKEND_PATH env) "main.py")) as [spec|] eqn:S;
      [|reflexivity].
    destruct (HS _ _ _ S) as [H1 H2].
    destruct (module_from_spec spec) as [u|e] eqn:F.
    + destruct (exec_module spec) as [mm|e] eqn:X; [reflexivity|].
      rewrite (H2 e eq_refl). reflexivity.
    + rewrite (H1 e eq_refl). reflexivity.
  - rewrite (HI _ _ e I). reflexivity.
Qed.

(** X9. Importing the gateway module (binder at line 67, global facade
    instance at line 165) does not fail for want of the backend: in every
    environment whose resolution steps raise nothing outside [Exception],
    the import returns, the globals are those the binder left, and the last
    line printed is the constructor's, announcing full mode exactly when the
    flag is set and fallback mode otherwise.  If the binder raises, the
    import raises the same exception and the facade is never constructed. *)
Theorem module_import (env : Env) (w : World) :
  let w1 := snd (initialize_dna_backend env w) in
  let w' := snd (import_dna_direct_import env w) in
  (env_raises_only_Exception env ->
   fst (import_dna_direct_import env w) = Ok tt
   /\ globals w' = globals w1
   /\ stdout w'
      = (stdout w1
         ++ [if DNA_BACKEND_AVAILABLE (globals w1)
             then "DNA Direct Integration initialized successfully"
             else "DNA backend not available - using fallback responses"])%list)
  /\ (forall e, fst (initialize_dna_backend env w) = Raise e ->
                import_dna_direct_import env w = (Raise e, w1)).
Proof.
  intros w1 w'. unfold w', w1, import_dna_direct_import, bind. split.
  - intros H. pose proof (binder_returns_ok env w H) as O.
    destruct (initialize_dna_backend env w) as [[u|e] w0]; simpl in O; [|discriminate O].
    simpl. run. destruct (DNA_BACKEND_AVAILABLE (globals w0)); repeat split.
  - intros e O.
    destruct (initialize_dna_backend env w) as [[u|e'] w0]; simpl in O;
      [discriminate O|].
    inversion O; subst. reflexivity.
Qed.

Lemma module_import_witness :
  env_raises_only_Exception Samples.env_absent
  /\ fst (import_dna_direct_import Samples.env_absent (initial_world [])) = Ok tt
  /\ import_dna_direct_import Samples.env_exits (initial_world [])
     = (Raise (Samples.SystemExit "1"),
        snd (initialize_dna_backend Samples.env_exits (initial_world []))).
Proof.
  assert (H : env_raises_only_Exception Samples.env_absent).
  { split.
    - intros path name e R. inversion R. reflexivity.
    - intros name location spec S. discriminate S. }
  split; [exact H|]. split.
  - exact (proj1 (proj1 (module_import Samples.env_absent (initial_world [])) H)).
  - exact (proj2 (module_import Samples.env_exits (initial_world []))
             (Samples.SystemExit "1") eq_refl).
Defined.

(** The world a call leaves: the one it found, or that world with one more
    line on [stdout], the latter only when the call returns. *)
Lemma perform_world (codec : Codec) (c : facade_call) (w : World) :
  snd (perform codec c w) = w
  \/ exists line v, perform codec c w = (Ok v, printed w line).
Proof.
  destruct c as [|request_data|]; simpl.
  - destruct (negb (DNA_BACKEND_AVAILABLE (globals w))
              || is_None (get_available_models_endpoint (globals w))) eqn:G.
    + rewrite get_available_models_guard by exact G. left. reflexivity.
    + apply orb_false_elim in G. destruct G as [A B].
      apply negb_false_iff in A.
      destruct (get_available_models_endpoint (globals w)) as [h|] eqn:E;
        [|discriminate B].
      rewrite (get_available_models_bound w h) by (split; assumption).
      destruct (h []) as [v|e]; [left; reflexivity|].
      destruct (isinstance_Exception e); [right; eauto | left; reflexivity].
  - destruct (negb (DNA_BACKEND_AVAILABLE (globals w))
              || is_None (llm_summary (globals w))) eqn:G.
    + rewrite llm_summary_guard by exact G. left. reflexivity.
    + apply orb_false_elim in G. destruct G as [A B].
      apply negb_false_iff in A.
      destruct (llm_summary (globals w)) as [h|] eqn:E; [|discriminate B].
      rewrite (llm_summary_bound request_data w h) by (split; assumption).
      destruct (h [request_data]) as [v|e]; [left; reflexivity|].
      destruct (isinstance_Exception e); [right; eauto | left; reflexivity].
  - destruct (negb (DNA_BACKEND_AVAILABLE (globals w))
              || is_None (get_config (globals w))) eqn:G.
    + rewrite get_config_guard by exact G. left. reflexivity.
    + apply orb_false_elim in G. destruct G as [A B].
      apply negb_false_iff in A.
      destruct (get_config (globals w)) as [h|] eqn:E; [|discriminate B].
      rewrite (get_config_bound codec w h) by (split; assumption).
      unfold config_handled.
      destruct (h []) as [r|e].
      * destruct (normalised codec r) as [v|e]; [left; reflexivity|].
        destruct (isinstance_Exception e); [right; eauto | left; reflexivity].
      * destruct (isinstance_Exception e); [right; eauto | left; reflexivity].
Qed.

(** X10. What a call on the facade leaves alone.  For every call, codec and
    world: the four globals, [sys.path] and [stderr] are left as they were;
    [stdout] is left as it was or gains exactly one line at its end; and a
    call that raises prints nothing. *)
Theorem facade_call_frame (codec : Codec) (c : facade_call) (w : World) :
  let w' := snd (perform codec c w) in
  globals w' = globals w
  /\ sys_path w' = sys_path w
  /\ stderr w' = stderr w
  /\ (stdout w' = stdout w \/ exists line, stdout w' = (stdout w ++ [line])%list)
  /\ (forall e, fst (perform codec c w) = Raise e -> stdout w' = stdout w).
Proof.
  intros w'. unfold w'.
  destruct (perform_world codec c w) as [E | (line & v & E)]; rewrite E.
  - repeat split; auto.
  - simpl. repeat split; eauto. intros e R. discriminate R.
Qed.

Lemma facade_call_frame_witness :
  stdout (snd (perform Samples.codec GetAvailableModels world_models_fail))
  = ["Error calling DNA backend get_available_models_endpoint: boom"]
  /\ stdout (snd (perform Samples.codec GetConfig world_config_interrupted)) = [].
Proof.
  split; [reflexivity|].
  apply (proj2 (proj2 (proj2 (proj2
           (facade_call_frame Samples.codec GetConfig world_config_interrupted)))))
    with (e := Samples.KeyboardInterrupt).
  reflexivity.
Defined.

(** The answer of a method is decided by the flag and the method's own
    global. *)
Lemma get_available_models_answer (w1 w2 : World) :
  DNA_BACKEND_AVAILABLE (globals w1) = DNA_BACKEND_AVAILABLE (globals w2) ->
  get_available_models_endpoint (globals w1) = get_available_models_endpoint (globals w2) ->
  fst (DNADirectIntegration.get_available_models w1)
  = fst (DNADirectIntegration.get_available_models w2).
Proof.
  intros A H.
  destruct (negb (DNA_BACKEND_AVAILABLE (globals w1))
            || is_None (get_available_models_endpoint (globals w1))) eqn:G.
  - rewrite (get_available_models_guard w1) by exact G.
    rewrite A, H in G. rewrite (get_available_models_guard w2) by exact G. reflexivity.
  - apply orb_false_elim in G. destruct G as [F N]. apply negb_false_iff in F.
    destruct (get_available_models_endpoint (globals w1)) as [h|] eqn:E;
      [|discriminate N].
    rewrite (get_available_models_bound w1 h) by (split; assumption).
    rewrite (get_available_models_bound w2 h) by (split; congruence).
    destruct (h []) as [v|e]; [reflexivity|].
    destruct (isinstance_Exception e); reflexivity.
Qed.

Lemma llm_summary_answer (request_data : pyval) (w1 w2 : World) :
  DNA_BACKEND_AVAILABLE (globals w1) = DNA_BACKEND_AVAILABLE (globals w2) ->
  llm_summary (globals w1) = llm_summary (globals w2) ->
  fst (DNADirectIntegration.llm_summary request_data w1)
  = fst (DNADirectIntegration.llm_summary request_data w2).
Proof.
  intros A H.
  destruct (negb (DNA_BACKEND_AVAILABLE (globals w1))
            || is_None (llm_summary (globals w1))) eqn:G.
  - rewrite (llm_summary_guard request_data w1) by exact G.
    rewrite A, H in G. rewrite (llm_summary_guard request_data w2) by exact G.
    reflexivity.
  - apply orb_false_elim in G. destruct G as [F N]. apply negb_false_iff in F.
    destruct (llm_summary (globals w1)) as [h|] eqn:E; [|discriminate N].
    rewrite (llm_summary_bound request_data w1 h) by (split; assumption).
    rewrite (llm_summary_bound request_data w2 h) by (split; congruence).
    destruct (h [request_data]) as [v|e]; [reflexivity|].
    destruct (isinstance_Exception e); reflexivity.
Qed.

Lemma get_config_answer (codec : Codec) (w1 w2 : World) :
  DNA_BACKEND_AVAILABLE (globals w1) = DNA_BACKEND_AVAILABLE (globals w2) ->
  get_config (globals w1) = get_config (globals w2) ->
  fst (DNADirectIntegration.get_config codec w1)
  = fst (DNADirectIntegration.get_config codec w2).
Proof.
  intros A H.
  destruct (negb (DNA_BACKEND_AVAILABLE (globals w1))
            || is_None (get_config (globals w1))) eqn:G.
  - rewrite (get_config_guard codec w1) by exact G.
    rewrite A, H in G. rewrite (get_config_guard codec w2) by exact G. reflexivity.
  - apply orb_false_elim in G. destruct G as [F N]. apply negb_false_iff in F.
    destruct (get_config (globals w1)) as [h|] eqn:E; [|discriminate N].
    rewrite (get_config_bound codec w1 h) by (split; assumption).
    rewrite (get_config_bound codec w2 h) by (split; congruence).
    unfold config_handled.
    destruct (h []) as [r|e].
    + destruct (normalised codec r) as [v|e]; [reflexivity|].
      destruct (isinstance_Exception e); reflexivity.
    + destruct (isinstance_Exception e); reflexivity.
Qed.

Lemma perform_answer (codec : Codec) (c : facade_call) (w1 w2 : World) :
  globals w1 = globals w2 ->
  fst (perform codec c w1) = fst (perform codec c w2).
Proof.
  intros E. destruct c; simpl.
  - apply get_available_models_answer; rewrite E; reflexivity.
  - apply llm_summary_answer; rewrite E; reflexivity.
  - apply get_config_answer; rewrite E; reflexivity.
Qed.

Lemma serve_answers (codec : Codec) (calls : list facade_call) (w w0 : World) :
  globals w = globals w0 ->
  fst (serve codec calls w) = map (fun c => fst (perform codec c w0)) calls.
Proof.
  revert w. induction calls as [|c rest IH]; intros w E; simpl; [reflexivity|].
  pose proof (perform_globals codec c w) as P.
  pose proof (perform_answer codec c w w0 E) as A.
  destruct (perform codec c w) as [r w1]. simpl in P, A.
  assert (E1 : globals w1 = globals w0) by congruence.
  specialize (IH w1 E1).
  destruct (serve codec rest w1) as [rs w2]. simpl in *. congruence.
Qed.

(** X11. The facade keeps no state between calls.  The answers to a
    sequence of calls are decided by the four globals alone - two worlds
    with the same globals give the same answers, whatever has been printed
    or put on [sys.path] - and each call of a sequence receives the answer
    it would receive if it were the only call. *)
Theorem calls_are_independent
  (codec : Codec) (calls : list facade_call) (w1 w2 : World) :
  fst (serve codec calls w1) = map (fun c => fst (perform codec c w1)) calls
  /\ (globals w1 = globals w2 ->
      fst (serve codec calls w1) = fst (serve codec calls w2)).
Proof.
  split.
  - apply serve_answers. reflexivity.
  - intros E. rewrite (serve_answers codec calls w1 w2 E).
    symmetry. apply serve_answers. reflexivity.
Qed.

Lemma calls_are_independent_witness :
  fst (serve Samples.codec [GetConfig; GetAvailableModels; GetConfig]
         world_config_malformed)
  = fst (serve Samples.codec [GetConfig; GetAvailableModels; GetConfig]
           (printed world_config_malformed "a line printed earlier")).
Proof.
  apply (proj2 (calls_are_independent Samples.codec
                  [GetConfig; GetAvailableModels; GetConfig]
                  world_config_malformed
                  (printed world_config_malformed "a line printed earlier"))).
  reflexivity.
Defined.

(** X12. Each method reads the flag and its own global and nothing else:
    two worlds that agree on the flag and on the global a method forwards to
    give that method the same answer, whatever the other two globals hold.
    A backend function that is missing or broken does not change what the
    other two methods answer. *)
Theorem method_reads_own_global
  (codec : Codec) (request_data : pyval) (w1 w2 : World) :
  DNA_BACKEND_AVAILABLE (globals w1) = DNA_BACKEND_AVAILABLE (globals w2) ->
  (get_available_models_endpoint (globals w1) = get_available_models_endpoint (globals w2) ->
   fst (DNADirectIntegration.get_available_models w1)
   = fst (DNADirectIntegration.get_available_models w2))
  /\ (llm_summary (globals w1) = llm_summary (globals w2) ->
      fst (DNADirectIntegration.llm_summary request_data w1)
      = fst (DNADirectIntegration.llm_summary request_data w2))
  /\ (get_config (globals w1) = get_config (globals w2) ->
      fst (DNADirectIntegration.get_config codec w1)
      = fst (DNADirectIntegration.get_config codec w2)).
Proof.
  intros A. repeat split; intros H.
  - apply get_available_models_answer; assumption.
  - apply llm_summary_answer; assumption.
  - apply get_config_answer; assumption.
Qed.

Lemma method_reads_own_global_witness :
  fst (DNADirectIntegration.get_available_models world_summary_fails)
  = fst (DNADirectIntegration.get_available_models world_config_interrupted).
Proof.
  apply (proj1 (method_reads_own_global Samples.codec PNone
                  world_summary_fails world_config_interrupted eq_refl)).
  reflexivity.
Defined.

(** X13. [get_config] looks for attributes, not for keys, and does not check
    what it passes on.  When the bound function returns a value that is not
    an object with attributes - a dictionary, also one that has a key called
    "content" or "body", but equally [None], a list, a string or bytes - the
    method returns that very value and the world is unchanged. *)
Theorem plain_value_passes_through
  (codec : Codec) (w : World) (h : Callable) (r : pyval) :
  config_bound w h -> h [] = Ok r ->
  (forall cls attrs, r <> PObj cls attrs) ->
  DNADirectIntegration.get_config codec w = (Ok r, w).
Proof.
  intros B E N.
  rewrite (get_config_bound codec w h B), E.
  assert (G : forall name, getattr r name = None).
  { intros name. destruct r; try reflexivity. exfalso. eapply N. reflexivity. }
  unfold normalised. rewrite (G "content"), (G "body"). reflexivity.
Qed.

Lemma plain_value_passes_through_witness :
  DNADirectIntegration.get_config Samples.codec world_config_keyed
  = (Ok dict_with_content_key, world_config_keyed).
Proof.
  apply (plain_value_passes_through Samples.codec world_config_keyed
           (fun _ => Ok dict_with_content_key) dict_with_content_key).
  - split; reflexivity.
  - reflexivity.
  - intros cls attrs H. discriminate H.
Defined.
